(** * Autopilot cost calculator: the classifier, the pricing engine and the
      aggregation, embedded from [main.go] and the table rendering file.

    Numbers are modelled as the Go code has them: [int64] as [Z] with the
    wrap-around written out where the code does arithmetic on it, [float64]
    as Rocq's primitive binary64 floats (round to nearest, ties to even, as
    Go on amd64; Go is allowed to fuse [x*y + z] on some other targets, which
    is not modelled).  [log.Printf] is modelled by a list of emitted lines. *)

From Stdlib Require Import ZArith Floats String Ascii List Lia Permutation Bool.
From stdpp Require Import gmap strings pretty.

Set Warnings "-inexact-float".
Local Open Scope Z_scope.

(** ** Machine integers *)

Module Int64.
Definition min_int : Z := - 2 ^ 63.
Definition max_int : Z := 2 ^ 63 - 1.

Definition in_range (z : Z) : bool := (min_int <=? z) && (z <=? max_int).

(** Two's complement wrap-around of an [int64] result. *)
Definition wrap (z : Z) : Z := (z + 2 ^ 63) mod 2 ^ 64 - 2 ^ 63.

Definition add (a b : Z) : Z := wrap (a + b).
Definition mul (a b : Z) : Z := wrap (a * b).

(** Go's [/] on integers truncates toward zero; the divisors used by the
    program are non-zero constants. *)
Definition quot (a b : Z) : Z := wrap (Z.quot a b).
End Int64.

(** ** Binary64 floats *)

Module Float64.
(** [float64(z)] for an [int64] [z]: the nearest binary64, ties to even. *)
Definition of_int (z : Z) : float :=
  SF2Prim (binary_normalize prec emax z 0 false).

(** [math.Ceil]: NaN, the infinities and the zeros are returned as they
    are; a value in (-1, 0) gives the negative zero. *)
Definition Ceil (x : float) : float :=
  match Prim2SF x with
  | S754_finite s m e =>
      if 0 <=? e then x
      else
        let q := Z.shiftr (Zpos m) (- e) in
        let exact := Z.land (Zpos m) (Z.ones (- e)) =? 0 in
        if s then (- of_int q)%float
        else if exact then of_int q else of_int (q + 1)
  | _ => x
  end.

(** [int64(x)]: truncation toward zero.  Outside the [int64] range (and
    for NaN) Go leaves the result to the target; amd64 gives the least
    [int64], which is what is written here. *)
Definition to_int (x : float) : Z :=
  match Prim2SF x with
  | S754_zero _ => 0
  | S754_finite s m e =>
      let a := if 0 <=? e then Zpos m * 2 ^ e else Z.shiftr (Zpos m) (- e) in
      let v := if s then - a else a in
      if Int64.in_range v then v else Int64.min_int
  | _ => Int64.min_int
  end.

(** [x != y] on floats (true when either side is NaN). *)
Definition neqb (x y : float) : bool := negb (x =? y)%float.
End Float64.

(** ** Diagnostics: a writer over the lines given to [log.Printf] *)

Definition Logged (A : Type) : Type := A * list string.

Global Instance Logged_ret : MRet Logged := fun A a => (a, []).
Global Instance Logged_bind : MBind Logged := fun A B k m =>
  let (a, l1) := m in let (b, l2) := k a in (b, l1 ++ l2).

Definition ret {A} (a : A) : Logged A := mret a.
Definition log_Printf (line : string) : Logged unit := (tt, [line]).
Definition when (b : bool) (m : Logged unit) : Logged unit :=
  if b then m else ret tt.

Definition value {A} (m : Logged A) : A := fst m.
Definition warnings {A} (m : Logged A) : list string := snd m.

(** ** Constants of [main.go] *)

Definition SERVICE_AUTOPILOT : string := "CCD8-9BF1-090E".
Definition CLUSTER_FEE : float := 0.1%float.
Definition ARM_TYPE_PREFIX : string := "t2a-".
Definition ONE_YEAR_DISCOUNT : float := 0.8%float.
Definition THREE_YEAR_DISCOUNT : float := 0.55%float.

(** ** Data model *)

(** Modelled from the spec: the declaration of [ComputeClass] and of its
    four constants is not in the files at hand; the spec gives it as a closed
    enumeration of Regular, Balanced, ScaleOut and ScaleOutArm. *)
Inductive ComputeClass : Set :=
  | COMPUTE_CLASS_REGULAR
  | COMPUTE_CLASS_BALANCED
  | COMPUTE_CLASS_SCALEOUT
  | COMPUTE_CLASS_SCALEOUT_ARM.

Global Instance ComputeClass_eq_dec : EqDecision ComputeClass.
Proof. solve_decision. Defined.

Record ap_pricing : Set := {
  region : string;
  storage_price : float;
  cpu_price : float;
  memory_price : float;
  cpu_balanced_price : float;
  memory_balanced_price : float;
  cpu_scaleout_price : float;
  memory_scaleout_price : float;
  cpu_arm_scaleout_price : float;
  memory_arm_scaleout_price : float;
  spot_cpu_price : float;
  spot_memory_price : float;
  spot_cpu_balanced_price : float;
  spot_memory_balanced_price : float;
  spot_cpu_scaleout_price : float;
  spot_memory_scaleout_price : float;
  spot_arm_cpu_scaleout_price : float;
  spot_arm_memory_scaleout_price : float
}.

(** ** [ValidateLowerLimits] *)

Definition ValidateLowerLimits (mCPU memory storage : Z) : Z * Z * Z :=
  let mCPU := if mCPU <? 250 then 250 else mCPU in
  let memory := if memory <? 500 then 500 else memory in
  let storage := if storage <? 10 then 10 else storage in
  (mCPU, memory, storage).

(** ** [DecideComputeClass] *)

Definition ratio_of (memory mCPU : Z) : float :=
  Float64.Ceil (Float64.of_int memory / Float64.of_int mCPU)%float.

Definition arm_out_of_range (ratio : float) (mCPU memory : Z) : bool :=
  Float64.neqb ratio 4 || (43000 <? mCPU) || (172000 <? memory).

Definition arm_range_warning (workload : string) : string :=
  "Requesting arm64 but requested mCPU () or memory or ratio are out of accepted range("
    +:+ workload +:+ ").
".

Definition no_class_warning (workload : string) : string :=
  "Couldn't find a matching compute class for " +:+ workload
    +:+ ". Defaulting to 'Regular'. Please check manually.
".

Definition DecideComputeClass (workload : string) (mCPU memory : Z) (arm64 : bool)
  : Logged ComputeClass :=
  let ratio := ratio_of memory mCPU in
  if arm64 then
    when (arm_out_of_range ratio mCPU memory)
         (log_Printf (arm_range_warning workload)) ;;
    ret COMPUTE_CLASS_SCALEOUT_ARM
  else if (1 <=? ratio)%float && (ratio <=? 6.5)%float
          && (mCPU <=? 30000) && (memory <=? 110000) then
    ret COMPUTE_CLASS_REGULAR
  else if (ratio =? 4)%float && (mCPU <=? 54000) && (memory <=? 216000) then
    ret COMPUTE_CLASS_SCALEOUT
  else if (1 <=? ratio)%float && (ratio <=? 8)%float
          && ((30000 <? mCPU) || (110000 <? memory)) then
    ret COMPUTE_CLASS_BALANCED
  else
    log_Printf (no_class_warning workload) ;;
    ret COMPUTE_CLASS_REGULAR.

(** ** [CalculatePricing] *)

Definition arm_price_warning (pricing : ap_pricing) : string :=
  "ARM pricing is not available in this " +:+ region pricing +:+ " region.".

(** The expression every branch of [CalculatePricing] returns, for the two
    unit prices the branch reads. *)
Definition cost_of (cpu_unit memory_unit storage_unit : float)
  (cpu_m memory_m storage_m : Z) : float :=
  (cpu_unit * Float64.of_int cpu_m / 1000
   + memory_unit * Float64.of_int memory_m / 1000
   + storage_unit * Float64.of_int storage_m / 1000)%float.

Definition CalculatePricing (cpu_m memory_m storage_m : Z) (pricing : ap_pricing)
  (class : ComputeClass) (spot : bool) : Logged float :=
  if spot then
    match class with
    | COMPUTE_CLASS_BALANCED =>
        ret (cost_of (spot_cpu_price pricing) (spot_memory_price pricing)
               (storage_price pricing) cpu_m memory_m storage_m)
    | COMPUTE_CLASS_SCALEOUT =>
        ret (cost_of (spot_cpu_scaleout_price pricing) (spot_memory_scaleout_price pricing)
               (storage_price pricing) cpu_m memory_m storage_m)
    | COMPUTE_CLASS_SCALEOUT_ARM =>
        when ((spot_arm_cpu_scaleout_price pricing =? 0)%float
              || (spot_arm_memory_scaleout_price pricing =? 0)%float)
             (log_Printf (arm_price_warning pricing)) ;;
        ret (cost_of (spot_arm_cpu_scaleout_price pricing)
               (spot_arm_memory_scaleout_price pricing)
               (storage_price pricing) cpu_m memory_m storage_m)
    | _ =>
        ret (cost_of (spot_cpu_price pricing) (spot_memory_price pricing)
               (storage_price pricing) cpu_m memory_m storage_m)
    end
  else
    match class with
    | COMPUTE_CLASS_BALANCED =>
        ret (cost_of (cpu_balanced_price pricing) (memory_balanced_price pricing)
               (storage_price pricing) cpu_m memory_m storage_m)
    | COMPUTE_CLASS_SCALEOUT =>
        ret (cost_of (cpu_scaleout_price pricing) (memory_scaleout_price pricing)
               (storage_price pricing) cpu_m memory_m storage_m)
    | COMPUTE_CLASS_SCALEOUT_ARM =>
        when ((cpu_arm_scaleout_price pricing =? 0)%float
              || (memory_arm_scaleout_price pricing =? 0)%float)
             (log_Printf (arm_price_warning pricing)) ;;
        ret (cost_of (cpu_arm_scaleout_price pricing) (memory_arm_scaleout_price pricing)
               (storage_price pricing) cpu_m memory_m storage_m)
    | _ =>
        ret (cost_of (cpu_price pricing) (memory_price pricing)
               (storage_price pricing) cpu_m memory_m storage_m)
    end.

(** The price table of [TestCalculatePricing]. *)
Definition test_pricing : ap_pricing := {|
  region := "test-region-1";
  storage_price := 0.0000706;
  cpu_price := 0.0573;
  memory_price := 0.0063421;
  cpu_balanced_price := 0.0831;
  memory_balanced_price := 0.0091933;
  cpu_scaleout_price := 0.0722;
  memory_scaleout_price := 0.0079911;
  cpu_arm_scaleout_price := 0;
  memory_arm_scaleout_price := 0;
  spot_cpu_price := 0.0172;
  spot_memory_price := 0.0019026;
  spot_cpu_balanced_price := 0.0249;
  spot_memory_balanced_price := 0.002758;
  spot_cpu_scaleout_price := 0.0217;
  spot_memory_scaleout_price := 0.0023973;
  spot_arm_cpu_scaleout_price := 0;
  spot_arm_memory_scaleout_price := 0
|}.

Definition float64EqualityThreshold : float := 1e-9%float.

Definition almostEqual (a b : float) : bool :=
  (abs (a - b) <=? float64EqualityThreshold)%float.

(** ** [GetAutopilotPricing] *)

(** The SKU records of the billing catalog, as far as the code reads them.
    A Go pointer that may be nil is an [option]; indexing an empty slice or
    following a nil pointer panics. *)
Record Money : Set := { Units : Z; Nanos : Z }.
Record TierRate : Set := { UnitPrice : option Money }.
Record PricingExpression : Set := {
  DisplayQuantity : float;
  TieredRates : list (option TierRate)
}.
Record PricingInfo : Set := { PricingExpression_ : option PricingExpression }.
Record Sku : Set := {
  Description : string;
  ServiceRegions : list string;
  PricingInfo_ : list (option PricingInfo)
}.

Inductive outcome (A : Type) : Type :=
  | Returned (a : A)
  | Panicked.
Arguments Returned {A} a.
Arguments Panicked {A}.

(** What the two calls to the billing service give back.  [Skus] is a slice
    of pointers: an entry may be nil ([None]). *)
Inductive billing_reply : Type :=
  | NewServiceError (err : string)
  | ListError (err : string)
  | Listed (Skus : list (option Sku)).

(** The seventeen price fields of [ap_pricing], one per [case] body. *)
Inductive price_field : Set :=
  | F_storage_price
  | F_cpu_price | F_memory_price
  | F_cpu_balanced_price | F_memory_balanced_price
  | F_cpu_scaleout_price | F_memory_scaleout_price
  | F_cpu_arm_scaleout_price | F_memory_arm_scaleout_price
  | F_spot_cpu_price | F_spot_memory_price
  | F_spot_cpu_balanced_price | F_spot_memory_balanced_price
  | F_spot_cpu_scaleout_price | F_spot_memory_scaleout_price
  | F_spot_arm_cpu_scaleout_price | F_spot_arm_memory_scaleout_price.

Global Instance price_field_eq_dec : EqDecision price_field.
Proof. solve_decision. Defined.

(** [pricing.f = price] *)
Definition assign (f : price_field) (price : float) (p : ap_pricing) : ap_pricing :=
  let upd g cur := if decide (f = g) then price else cur in
  {| region := region p;
     storage_price := upd F_storage_price (storage_price p);
     cpu_price := upd F_cpu_price (cpu_price p);
     memory_price := upd F_memory_price (memory_price p);
     cpu_balanced_price := upd F_cpu_balanced_price (cpu_balanced_price p);
     memory_balanced_price := upd F_memory_balanced_price (memory_balanced_price p);
     cpu_scaleout_price := upd F_cpu_scaleout_price (cpu_scaleout_price p);
     memory_scaleout_price := upd F_memory_scaleout_price (memory_scaleout_price p);
     cpu_arm_scaleout_price := upd F_cpu_arm_scaleout_price (cpu_arm_scaleout_price p);
     memory_arm_scaleout_price :=
       upd F_memory_arm_scaleout_price (memory_arm_scaleout_price p);
     spot_cpu_price := upd F_spot_cpu_price (spot_cpu_price p);
     spot_memory_price := upd F_spot_memory_price (spot_memory_price p);
     spot_cpu_balanced_price :=
       upd F_spot_cpu_balanced_price (spot_cpu_balanced_price p);
     spot_memory_balanced_price :=
       upd F_spot_memory_balanced_price (spot_memory_balanced_price p);
     spot_cpu_scaleout_price :=
       upd F_spot_cpu_scaleout_price (spot_cpu_scaleout_price p);
     spot_memory_scaleout_price :=
       upd F_spot_memory_scaleout_price (spot_memory_scaleout_price p);
     spot_arm_cpu_scaleout_price :=
       upd F_spot_arm_cpu_scaleout_price (spot_arm_cpu_scaleout_price p);
     spot_arm_memory_scaleout_price :=
       upd F_spot_arm_memory_scaleout_price (spot_arm_memory_scaleout_price p) |}.

Definition case_of (kind region : string) : string := kind +:+ " (" +:+ region +:+ ")".

(** The [case] clauses of the [switch sku.Description], in source order, each
    with the field its body assigns. *)
Definition sku_cases (region : string) : list (string * price_field) :=
  [ (case_of "Autopilot Pod Ephemeral Storage Requests" region, F_storage_price);
    (case_of "Autopilot Pod Memory Requests" region, F_memory_price);
    (case_of "Autopilot Pod mCPU Requests" region, F_cpu_price);
    (case_of "Autopilot Balanced Pod Memory Requests" region, F_memory_balanced_price);
    (case_of "Autopilot Balanced Pod mCPU Requests" region, F_cpu_balanced_price);
    (case_of "Autopilot Scale-Out x86 Pod Memory Requests" region, F_memory_scaleout_price);
    (case_of "Autopilot Scale-Out x86 Pod mCPU Requests" region, F_cpu_scaleout_price);
    (case_of "Autopilot Scale-Out Arm Spot Pod Memory Requests" region,
      F_memory_arm_scaleout_price);
    (case_of "Autopilot Scale-Out Arm Spot Pod mCPU Requests" region,
      F_cpu_arm_scaleout_price);
    (case_of "Autopilot Spot Pod Memory Requests" region, F_spot_memory_price);
    (case_of "Autopilot Spot Pod mCPU Requests" region, F_spot_cpu_price);
    (case_of "Autopilot Balanced Spot Pod Memory Requests" region,
      F_spot_memory_balanced_price);
    (case_of "Autopilot Balanced Spot Pod mCPU Requests" region,
      F_spot_cpu_balanced_price);
    (case_of "Autopilot Scale-Out x86 Spot Pod Memory Requests" region,
      F_spot_memory_scaleout_price);
    (case_of "Autopilot Scale-Out x86 Spot Pod mCPU Requests" region,
      F_spot_cpu_scaleout_price);
    (case_of "Autopilot Scale-Out Arm Spot Pod Memory Requests" region,
      F_spot_arm_memory_scaleout_price);
    (case_of "Autopilot Scale-Out Arm Spot Pod mCPU Requests" region,
      F_spot_arm_cpu_scaleout_price) ].

(** A Go [switch] on a string with non-constant cases: the cases are compared
    from the top, and the first equal one is taken. *)
Fixpoint switch_on (tag : string) (cases : list (string * price_field))
  : option price_field :=
  match cases with
  | [] => None
  | (c, f) :: rest => if String.eqb tag c then Some f else switch_on tag rest
  end.

(** [slices.Contains] on strings. *)
Definition slices_Contains (s : list string) (v : string) : bool :=
  existsb (String.eqb v) s.

(** [sku.PricingInfo[0].PricingExpression], [.TieredRates[0].UnitPrice]. *)
Definition first_expression (sku : Sku) : option PricingExpression :=
  match PricingInfo_ sku with
  | Some info :: _ => PricingExpression_ info
  | _ => None
  end.

Definition first_unit_price (e : PricingExpression) : option Money :=
  match TieredRates e with
  | Some rate :: _ => UnitPrice rate
  | _ => None
  end.

Definition sku_price (sku : Sku) : outcome float :=
  match first_expression sku with
  | None => Panicked
  | Some e =>
      match first_unit_price e with
      | None => Panicked
      | Some money =>
          let decimal := Int64.mul (Units money) 1000000000 in
          let mantissa := Int64.mul (Nanos money) (Float64.to_int (DisplayQuantity e)) in
          Returned (Float64.of_int (Int64.add decimal mantissa) / 1000000000)%float
      end
  end.

(** One turn of the loop over [pricingInfo.Skus]. *)
Definition price_sku (region : string) (pricing : ap_pricing) (sku : Sku)
  : outcome ap_pricing :=
  if negb (slices_Contains (ServiceRegions sku) region) then Returned pricing
  else
    match sku_price sku with
    | Panicked => Panicked
    | Returned price =>
        match switch_on (Description sku) (sku_cases region) with
        | Some f => Returned (assign f price pricing)
        | None => Returned pricing
        end
    end.

(** The loop; on a nil entry, reading [sku.ServiceRegions] panics. *)
Fixpoint price_skus (region : string) (pricing : ap_pricing) (skus : list (option Sku))
  : outcome ap_pricing :=
  match skus with
  | [] => Returned pricing
  | None :: _ => Panicked
  | Some sku :: rest =>
      match price_sku region pricing sku with
      | Panicked => Panicked
      | Returned pricing' => price_skus region pricing' rest
      end
  end.

(** [ap_pricing{}] and the record the function starts from. *)
Definition zero_pricing (region : string) : ap_pricing :=
  {| region := region;
     storage_price := 0; cpu_price := 0; memory_price := 0;
     cpu_balanced_price := 0; memory_balanced_price := 0;
     cpu_scaleout_price := 0; memory_scaleout_price := 0;
     cpu_arm_scaleout_price := 0; memory_arm_scaleout_price := 0;
     spot_cpu_price := 0; spot_memory_price := 0;
     spot_cpu_balanced_price := 0; spot_memory_balanced_price := 0;
     spot_cpu_scaleout_price := 0; spot_memory_scaleout_price := 0;
     spot_arm_cpu_scaleout_price := 0; spot_arm_memory_scaleout_price := 0 |}.

(** The function returns a pair [(ap_pricing, error)]; [None] is the nil
    error. *)
Definition GetAutopilotPricing (region : string) (reply : billing_reply)
  : outcome (ap_pricing * option string) :=
  match reply with
  | NewServiceError err =>
      Returned (zero_pricing "",
                Some ("unable to initialize cloud billing service: " +:+ err))
  | ListError err =>
      Returned (zero_pricing "", Some ("unable to fetch cloud billing prices: " +:+ err))
  | Listed skus =>
      match price_skus region (zero_pricing region) skus with
      | Panicked => Panicked
      | Returned pricing => Returned (pricing, None)
      end
  end.

(** ** Workloads and nodes *)

(** Modelled from the spec: the declarations of [Workload] and [Node] are
    not in the files at hand; the fields are the ones [PopulateWorkloads] and
    the table code read and write, with the types the spec's data model gives
    them. *)
Module Workload.
Record t : Set := {
  Name : string;
  Containers : Z;
  Node_name : string;
  Cpu : Z;
  Memory : Z;
  Storage : Z;
  Cost : float;
  Compute_class : ComputeClass
}.
End Workload.

Module Node.
Record t : Set := {
  Name : string;
  InstanceType : string;
  Region : string;
  Spot : bool;
  Workloads : list Workload.t;
  Cost : float
}.

(** The zero value, which indexing a Go map gives for a missing key. *)
Definition zero : t :=
  {| Name := ""; InstanceType := ""; Region := ""; Spot := false;
     Workloads := []; Cost := 0 |}.

(** [entry.Workloads = append(entry.Workloads, w); entry.Cost += cost] *)
Definition host (entry : t) (w : Workload.t) (cost : float) : t :=
  {| Name := Name entry; InstanceType := InstanceType entry;
     Region := Region entry; Spot := Spot entry;
     Workloads := Workloads entry ++ [w];
     Cost := (Cost entry + cost)%float |}.
End Node.

(** [strings.Contains] *)
Fixpoint strings_Contains (s substr : string) : bool :=
  String.prefix substr s
  || match s with
     | EmptyString => false
     | String _ rest => strings_Contains rest substr
     end.

(** ** [PopulateWorkloads] *)

Inductive result (A : Type) : Type :=
  | Ok (a : A)
  | Err (err : string).
Arguments Ok {A} a.
Arguments Err {A} err.

(** The [MilliValue()] of the three usage quantities of a container. *)
Record ContainerMetrics : Set := {
  Usage_Cpu : Z;
  Usage_Memory : Z;
  Usage_StorageEphemeral : Z
}.

Record PodMetrics : Set := {
  pm_Name : string;
  pm_Namespace : string;
  pm_Containers : list ContainerMetrics
}.

(** [cpu_m], [memory_m], [storage_m] and [containers_in_pod] after the loop
    over the containers of a pod. *)
Definition sum_usage (containers : list ContainerMetrics) : Z * Z * Z * Z :=
  fold_left
    (fun '(cpu_m, memory_m, storage_m, containers_in_pod) k =>
       (Int64.add cpu_m (Usage_Cpu k),
        Int64.add memory_m (Int64.quot (Usage_Memory k) 1000000000),
        Int64.add storage_m (Int64.quot (Usage_StorageEphemeral k) 1000000000),
        containers_in_pod + 1))
    containers (0, 0, 0, 0).

Section PopulateWorkloads.
(** The cluster lookup of a pod, by name and namespace: the name of the
    node it runs on ([pod.Spec.NodeName]), or an error. *)
Variable DescribePod : string -> string -> result string.
Variable pricing : ap_pricing.

(** [nodes[name]] *)
Definition node_at (nodes : gmap string Node.t) (name : string) : Node.t :=
  default Node.zero (nodes !! name).

(** The [workload_object] built for a pod that runs on [node_name]. *)
Definition workload_object (nodes : gmap string Node.t) (v : PodMetrics)
  (node_name : string) : Logged Workload.t :=
  let '(cpu_m, memory_m, storage_m, containers_in_pod) :=
    sum_usage (pm_Containers v) in
  let '(cpu_m, memory_m, storage_m) :=
    ValidateLowerLimits cpu_m memory_m storage_m in
  compute_class ← DecideComputeClass (pm_Name v) cpu_m memory_m
    (strings_Contains (Node.InstanceType (node_at nodes node_name)) ARM_TYPE_PREFIX);
  cost ← CalculatePricing cpu_m memory_m storage_m pricing compute_class
    (Node.Spot (node_at nodes node_name));
  ret {| Workload.Name := pm_Name v;
         Workload.Containers := containers_in_pod;
         Workload.Node_name := node_name;
         Workload.Cpu := cpu_m;
         Workload.Memory := memory_m;
         Workload.Storage := storage_m;
         Workload.Cost := cost;
         Workload.Compute_class := compute_class |}.

(** [if entry, ok := nodes[name]; ok { ... nodes[name] = entry }] *)
Definition add_to_node (nodes : gmap string Node.t) (w : Workload.t)
  : gmap string Node.t :=
  match nodes !! Workload.Node_name w with
  | Some entry =>
      <[Workload.Node_name w := Node.host entry w (Workload.Cost w)]> nodes
  | None => nodes
  end.

(** The loop over [podMetricsList.Items] (the listing itself is taken as
    done: on its error the program exits).  The map of nodes is shared with
    the caller and updated in place, so it is part of the result also when
    the function returns an error. *)
Fixpoint populate (items : list PodMetrics) (nodes : gmap string Node.t)
  (workloads : list Workload.t)
  : Logged (gmap string Node.t * result (list Workload.t)) :=
  match items with
  | [] => ret (nodes, Ok workloads)
  | v :: rest =>
      match DescribePod (pm_Name v) (pm_Namespace v) with
      | Err err => ret (nodes, Err err)
      | Ok node_name =>
          w ← workload_object nodes v node_name;
          populate rest (add_to_node nodes w) (workloads ++ [w])
      end
  end.

Definition PopulateWorkloads (items : list PodMetrics) (nodes : gmap string Node.t)
  : Logged (gmap string Node.t * result (list Workload.t)) :=
  populate items nodes [].
End PopulateWorkloads.

(** ** [DisplayWorkloadTable]: the three summary rows *)

(** The body of the inner loop: a workload's cost goes to [total_cost_spot]
    on a spot node and to [total_cost] otherwise. *)
Definition add_cost (spot : bool) (totals : float * float) (workload : Workload.t)
  : float * float :=
  let (total_cost, total_cost_spot) := totals in
  if spot then (total_cost, (total_cost_spot + Workload.Cost workload)%float)
  else ((total_cost + Workload.Cost workload)%float, total_cost_spot).

(** [total_cost] and [total_cost_spot] after the two loops.  A Go map is
    ranged over in an unspecified order; [order] is the order of one run. *)
Definition cluster_totals (order : list Node.t) : float * float :=
  fold_left
    (fun totals node => fold_left (add_cost (Node.Spot node)) (Node.Workloads node) totals)
    order (CLUSTER_FEE, 0%float).

(** The three rows appended after the workload rows, each with the number
    that [strconv.FormatFloat] is given (the formatting and the drawing of
    the table are not modelled). *)
Definition DisplayWorkloadTable (order : list Node.t) : list (string * float) :=
  let (total_cost, total_cost_spot) := cluster_totals order in
  [ ("Total cost per cluster per hour", total_cost);
    ("... 1 year commit", (total_cost_spot + total_cost * ONE_YEAR_DISCOUNT)%float);
    ("... with 3 year commit", (total_cost_spot + total_cost * THREE_YEAR_DISCOUNT)%float) ].

Definition reported_total (order : list Node.t) : float :=
  fst (cluster_totals order).
Definition reported_1yr (order : list Node.t) : float :=
  let (total_cost, total_cost_spot) := cluster_totals order in
  (total_cost_spot + total_cost * ONE_YEAR_DISCOUNT)%float.
Definition reported_3yr (order : list Node.t) : float :=
  let (total_cost, total_cost_spot) := cluster_totals order in
  (total_cost_spot + total_cost * THREE_YEAR_DISCOUNT)%float.

(** ** The classifier as the specification words it *)

Module Spec.
(** "Evaluate in this exact order; first match wins." *)
Fixpoint first_match (rules : list (bool * ComputeClass)) : option ComputeClass :=
  match rules with
  | [] => None
  | (true, class) :: _ => Some class
  | (false, _) :: rest => first_match rest
  end.

(** Rules 3, 4 and 5, for a ratio already computed. *)
Definition rules (ratio : float) (cpuMilli memoryMiB : Z)
  : list (bool * ComputeClass) :=
  [ ((1 <=? ratio)%float && (ratio <=? 6.5)%float
       && (cpuMilli <=? 30000) && (memoryMiB <=? 110000),
     COMPUTE_CLASS_REGULAR);
    ((ratio =? 4)%float && (cpuMilli <=? 54000) && (memoryMiB <=? 216000),
     COMPUTE_CLASS_SCALEOUT);
    ((1 <=? ratio)%float && (ratio <=? 8)%float
       && ((30000 <? cpuMilli) || (110000 <? memoryMiB)),
     COMPUTE_CLASS_BALANCED) ].

(** The class, and whether a warning is due. *)
Definition classify (ratio : float) (cpuMilli memoryMiB : Z) (requestsArm : bool)
  : ComputeClass * bool :=
  if requestsArm then
    (COMPUTE_CLASS_SCALEOUT_ARM,
     Float64.neqb ratio 4 || (43000 <? cpuMilli) || (172000 <? memoryMiB))
  else
    match first_match (rules ratio cpuMilli memoryMiB) with
    | Some class => (class, false)
    | None => (COMPUTE_CLASS_REGULAR, true)
    end.

(** The line that is logged when a warning is due. *)
Definition warning (workload : string) (requestsArm : bool) : string :=
  if requestsArm then arm_range_warning workload else no_class_warning workload.
End Spec.

(** The pair of unit prices read by the branch of [CalculatePricing] that is
    taken for a class and a billing mode. *)
Definition unit_prices (pricing : ap_pricing) (class : ComputeClass) (spot : bool)
  : float * float :=
  match spot, class with
  | true, COMPUTE_CLASS_REGULAR => (spot_cpu_price pricing, spot_memory_price pricing)
  | true, COMPUTE_CLASS_BALANCED => (spot_cpu_price pricing, spot_memory_price pricing)
  | true, COMPUTE_CLASS_SCALEOUT =>
      (spot_cpu_scaleout_price pricing, spot_memory_scaleout_price pricing)
  | true, COMPUTE_CLASS_SCALEOUT_ARM =>
      (spot_arm_cpu_scaleout_price pricing, spot_arm_memory_scaleout_price pricing)
  | false, COMPUTE_CLASS_REGULAR => (cpu_price pricing, memory_price pricing)
  | false, COMPUTE_CLASS_BALANCED =>
      (cpu_balanced_price pricing, memory_balanced_price pricing)
  | false, COMPUTE_CLASS_SCALEOUT =>
      (cpu_scaleout_price pricing, memory_scaleout_price pricing)
  | false, COMPUTE_CLASS_SCALEOUT_ARM =>
      (cpu_arm_scaleout_price pricing, memory_arm_scaleout_price pricing)
  end.

(** The pair the record keeps for a class and a billing mode. *)
Definition dedicated_prices (pricing : ap_pricing) (class : ComputeClass) (spot : bool)
  : float * float :=
  match spot, class with
  | true, COMPUTE_CLASS_BALANCED =>
      (spot_cpu_balanced_price pricing, spot_memory_balanced_price pricing)
  | _, _ => unit_prices pricing class spot
  end.

(** ** Derived notions and the examples used below *)

(** The ARM pair of a billing mode. *)
Definition arm_prices (pricing : ap_pricing) (spot : bool) : float * float :=
  if spot then (spot_arm_cpu_scaleout_price pricing, spot_arm_memory_scaleout_price pricing)
  else (cpu_arm_scaleout_price pricing, memory_arm_scaleout_price pricing).

Definition spot_arm_unset (p : ap_pricing) : Prop :=
  spot_arm_cpu_scaleout_price p = 0%float
  /\ spot_arm_memory_scaleout_price p = 0%float.

Definition is_spot_arm_field (f : price_field) : bool :=
  match f with
  | F_spot_arm_cpu_scaleout_price | F_spot_arm_memory_scaleout_price => true
  | _ => false
  end.

(** A SKU whose price the loop can read without a panic. *)
Definition priced (sku : Sku) : bool :=
  match first_expression sku with
  | Some e => match first_unit_price e with Some _ => true | None => false end
  | None => false
  end.

(** An entry of the catalog that the loop passes without a panic: it is not
    nil, and it is a SKU of another region or a SKU with a unit price. *)
Definition passes (region : string) (entry : option Sku) : bool :=
  match entry with
  | Some sku => negb (slices_Contains (ServiceRegions sku) region) || priced sku
  | None => false
  end.

(** A catalog with one ARM SKU for each of the two repeated descriptions. *)
Definition sku_of (description region : string) (units nanos : Z) : Sku :=
  {| Description := description;
     ServiceRegions := [region];
     PricingInfo_ :=
       [Some {| PricingExpression_ :=
                  Some {| DisplayQuantity := 1;
                          TieredRates :=
                            [Some {| UnitPrice :=
                                       Some {| Units := units; Nanos := nanos |} |}] |} |}] |}.

Definition arm_catalog : list (option Sku) :=
  [ Some (sku_of "Autopilot Scale-Out Arm Spot Pod mCPU Requests (us-central1)"
            "us-central1" 0 13300000);
    Some (sku_of "Autopilot Scale-Out Arm Spot Pod Memory Requests (us-central1)"
            "us-central1" 0 1471000);
    Some (sku_of "Autopilot Pod mCPU Requests (us-central1)" "us-central1" 0 44500000);
    Some (sku_of "Autopilot Pod mCPU Requests (europe-west1)" "europe-west1" 1 0) ].

Definition arm_catalog_pricing : ap_pricing :=
  assign F_cpu_price 0.0445
    (assign F_memory_arm_scaleout_price 0.001471
       (assign F_cpu_arm_scaleout_price 0.0133 (zero_pricing "us-central1"))).

Definition described (DescribePod : string -> string -> result string)
  (v : PodMetrics) : bool :=
  match DescribePod (pm_Name v) (pm_Namespace v) with
  | Ok _ => true
  | Err _ => false
  end.

Definition node_name_of (DescribePod : string -> string -> result string)
  (v : PodMetrics) : string :=
  match DescribePod (pm_Name v) (pm_Namespace v) with
  | Ok node_name => node_name
  | Err _ => ""
  end.

(** The workloads a pass builds, in the order of the items. *)
Definition planned (DescribePod : string -> string -> result string)
  (pricing : ap_pricing) (nodes : gmap string Node.t) (items : list PodMetrics)
  : list Workload.t :=
  map (fun v => value (workload_object pricing nodes v (node_name_of DescribePod v)))
    items.

(** The workloads of a list that run on the node [name]. *)
Definition hosted (name : string) (workloads : list Workload.t) : list Workload.t :=
  filter (fun w => Workload.Node_name w = name) workloads.

(** [total += cost], over a list of workloads. *)
Definition running_total (start : float) (workloads : list Workload.t) : float :=
  fold_left (fun total w => (total + Workload.Cost w)%float) workloads start.

(** The example cluster: one spot node and one ARM node. *)
Definition node_of (name instance_type : string) (spot : bool) : Node.t :=
  {| Node.Name := name; Node.InstanceType := instance_type; Node.Region := "us-central1";
     Node.Spot := spot; Node.Workloads := []; Node.Cost := 0 |}.

Definition example_nodes : gmap string Node.t :=
  <["n1" := node_of "n1" "e2-standard-4" true]>
    (<["n2" := node_of "n2" "t2a-standard-4" false]> ∅).

(** A pod with one container that uses [cpu] mCPU and [memory] MiB. *)
Definition pod_of (name : string) (cpu memory : Z) : PodMetrics :=
  {| pm_Name := name; pm_Namespace := "default";
     pm_Containers :=
       [ {| Usage_Cpu := cpu; Usage_Memory := memory * 1000000000;
            Usage_StorageEphemeral := 0 |} ] |}.

(** Every pod runs on the spot node, but the pod "arm". *)
Definition example_DescribePod (name namespace : string) : result string :=
  if String.eqb name "arm" then Ok "n2" else Ok "n1".

(** A price table with a spot price of 0.1 for a thousand mCPU and nothing
    else priced. *)
Definition cpu_only_pricing : ap_pricing :=
  assign F_spot_cpu_price 0.1 (zero_pricing "us-central1").

Definition pods_abc : list PodMetrics :=
  [pod_of "a" 1000 1000; pod_of "b" 2000 2000; pod_of "c" 3000 3000].
Definition pods_cba : list PodMetrics :=
  [pod_of "c" 3000 3000; pod_of "b" 2000 2000; pod_of "a" 1000 1000].

(** The same with a spot price of 4, and a pod whose usage is 2^53 times the
    lower limit: magnitudes no cluster has, and well-formed [int64] values. *)
Definition four_pricing : ap_pricing :=
  assign F_spot_cpu_price 4 (zero_pricing "us-central1").

Definition pods_big_first : list PodMetrics :=
  [pod_of "a" (250 * 2 ^ 53) 500; pod_of "b" 250 500; pod_of "c" 250 500].
Definition pods_big_last : list PodMetrics :=
  [pod_of "b" 250 500; pod_of "c" 250 500; pod_of "a" (250 * 2 ^ 53) 500].

(** The cost of a node after a pass. *)
Definition node_cost_after (DescribePod : string -> string -> result string)
  (pricing : ap_pricing) (items : list PodMetrics) (nodes : gmap string Node.t)
  (name : string) : option float :=
  Node.Cost <$> fst (value (PopulateWorkloads DescribePod pricing items nodes)) !! name.

(** The workloads of the spot nodes ([spot = true]) or of the other nodes of
    a list, in the order of the list. *)
Definition workloads_on (spot : bool) (order : list Node.t) : list Workload.t :=
  flat_map (fun node => if Bool.eqb (Node.Spot node) spot then Node.Workloads node else [])
    order.

(** A cluster whose only workload, of 4000 mCPU and 16000 MiB, runs on the
    spot node, priced with the table of the tests; the nodes are listed in
    the order the map enumerates them. *)
Definition spot_cluster : list Node.t :=
  map snd
    (map_to_list
       (fst (value (PopulateWorkloads example_DescribePod test_pricing
                      [pod_of "a" 4000 16000] example_nodes)))).

(** ** [main]: the region of the cluster *)

(** [strings.Split(s, sep)] for a separator of one character, as [main]
    calls it: the pieces of [s] between the separators, at least one. *)
Fixpoint strings_Split (s : string) (sep : ascii) : list string :=
  match s with
  | EmptyString => [EmptyString]
  | String c rest =>
      if Ascii.eqb c sep then EmptyString :: strings_Split rest sep
      else
        match strings_Split rest sep with
        | piece :: pieces => String c piece :: pieces
        | [] => [String c EmptyString]
        end
  end.

(** [strings.Join(elems, sep)] *)
Definition strings_Join (elems : list string) (sep : string) : string :=
  String.concat sep elems.

(** [clusterRegion]: the zone without its last piece,
    [strings.Join(strings.Split(zone, "-")[:len(strings.Split(zone, "-"))-1], "-")]. *)
Definition clusterRegion (clusterZone : string) : string :=
  let pieces := strings_Split clusterZone "-" in
  strings_Join (firstn (length pieces - 1) pieces) "-".

(** A string without the separator. *)
Fixpoint free_of (sep : ascii) (s : string) : bool :=
  match s with
  | EmptyString => true
  | String c rest => negb (Ascii.eqb c sep) && free_of sep rest
  end.

(** ** The rows of the two tables *)

(** [strconv.FormatBool] *)
Definition FormatBool (b : bool) : string := if b then "true" else "false".

(** [strconv.Itoa] and [strconv.FormatInt(_, 10)] *)
Definition FormatInt (z : Z) : string := pretty z.

(** The titles and widths of the columns of the two tables. *)
Definition node_columns : list (string * Z) :=
  [("Name", 55); ("Type", 15); ("Region", 20); ("Spot?", 10)].

Definition workload_columns : list (string * Z) :=
  [("Node", 55); ("Workload", 40); ("Containers", 10); ("Spot", 10); ("mCPU", 10);
   ("Memory MiB", 10); ("Storage MiB", 12); ("Compute Class", 13); ("Price $/H", 10)].

(** [DisplayNodeTable]: the rows given to the table, for the order in which
    the map is ranged over (the drawing is not modelled). *)
Definition node_row (node : Node.t) : list string :=
  [Node.Name node; Node.InstanceType node; Node.Region node; FormatBool (Node.Spot node)].

Definition DisplayNodeTable (order : list Node.t) : list (list string) :=
  fold_left (fun rows node => rows ++ [node_row node]) order [].

Section WorkloadRows.
(** [strconv.FormatFloat(_, 'G', 7, 64)] and the table [COMPUTE_CLASSES] of
    the names of the classes, which is declared in a file not at hand. *)
Variable FormatFloat : float -> string.
Variable COMPUTE_CLASSES : ComputeClass -> string.

Definition workload_row (node : Node.t) (workload : Workload.t) : list string :=
  [Node.Name node;
   Workload.Name workload;
   FormatInt (Workload.Containers workload);
   FormatBool (Node.Spot node);
   FormatInt (Workload.Cpu workload);
   FormatInt (Workload.Memory workload);
   FormatInt (Workload.Storage workload);
   COMPUTE_CLASSES (Workload.Compute_class workload);
   FormatFloat (Workload.Cost workload)].

Definition summary_row (line : string * float) : list string :=
  [fst line; ""; ""; ""; ""; ""; ""; ""; FormatFloat (snd line)].

(** [rows] when [DisplayWorkloadTable] builds the table: a row for each
    workload of each node, then the three summary rows. *)
Definition workload_table_rows (order : list Node.t) : list (list string) :=
  let rows :=
    fold_left
      (fun rows node =>
         fold_left (fun rows workload => rows ++ [workload_row node workload])
           (Node.Workloads node) rows)
      order [] in
  fold_left (fun rows line => rows ++ [summary_row line]) (DisplayWorkloadTable order) rows.
End WorkloadRows.

(** ** Notions used to state the properties of the catalog and of the pass *)


Definition in_region (region : string) (sku : Sku) : bool :=
  slices_Contains (ServiceRegions sku) region.




(** An entry that is nil or a SKU of the region: what is left of a catalog
    when the SKUs of other regions are taken out. *)
Definition of_region (region : string) (entry : option Sku) : bool :=
  match entry with
  | Some sku => in_region region sku
  | None => true
  end.

(** The sum of a list of integers. *)
Definition Zsum (l : list Z) : Z := fold_right Z.add 0 l.

(** The usage of the containers of a pod is non-negative and its sums fit
    [int64]. *)
Definition usage_fits (containers : list ContainerMetrics) : Prop :=
  Forall (fun k => 0 <= Usage_Cpu k /\ 0 <= Usage_Memory k
                   /\ 0 <= Usage_StorageEphemeral k) containers
  /\ Zsum (map Usage_Cpu containers) <= Int64.max_int
  /\ Zsum (map Usage_Memory containers) <= Int64.max_int
  /\ Zsum (map Usage_StorageEphemeral containers) <= Int64.max_int.

(** The static part of a node: what a pass over the workloads leaves alone. *)
Definition same_node (entry entry' : Node.t) : Prop :=
  Node.Name entry' = Node.Name entry
  /\ Node.InstanceType entry' = Node.InstanceType entry
  /\ Node.Region entry' = Node.Region entry
  /\ Node.Spot entry' = Node.Spot entry.

(** A workload at or above the three lower limits. *)
Definition within_floors (w : Workload.t) : Prop :=
  250 <= Workload.Cpu w /\ 500 <= Workload.Memory w /\ 10 <= Workload.Storage w.

(** What a recorded workload says of itself, given the node map it was
    built against. *)
Definition consistent (pricing : ap_pricing) (nodes : gmap string Node.t)
  (w : Workload.t) : Prop :=
  let node := node_at nodes (Workload.Node_name w) in
  within_floors w
  /\ Workload.Compute_class w
     = value (DecideComputeClass (Workload.Name w) (Workload.Cpu w) (Workload.Memory w)
                (strings_Contains (Node.InstanceType node) ARM_TYPE_PREFIX))
  /\ Workload.Cost w
     = value (CalculatePricing (Workload.Cpu w) (Workload.Memory w) (Workload.Storage w)
                pricing (Workload.Compute_class w) (Node.Spot node)).

(** The pods before the first one that is not found, and the error of that
    one. *)
Fixpoint found_before (DescribePod : string -> string -> result string)
  (items : list PodMetrics) : list PodMetrics :=
  match items with
  | [] => []
  | v :: rest =>
      if described DescribePod v then v :: found_before DescribePod rest else []
  end.

Fixpoint first_error (DescribePod : string -> string -> result string)
  (items : list PodMetrics) : option string :=
  match items with
  | [] => None
  | v :: rest =>
      match DescribePod (pm_Name v) (pm_Namespace v) with
      | Ok _ => first_error DescribePod rest
      | Err err => Some err
      end
  end.

(** A lookup that does not find the pod "lost". *)
Definition losing_DescribePod (name namespace : string) : result string :=
  if String.eqb name "lost" then Err "pods lost not found" else Ok "n1".

(** The pods of a pass whose node is in the map. *)
Definition on_known_nodes (DescribePod : string -> string -> result string)
  (nodes : gmap string Node.t) (items : list PodMetrics) : list PodMetrics :=
  filter (fun v => is_Some (nodes !! node_name_of DescribePod v)) items.

(** A lookup that places the pod "g" on a node "ghost" that the map does not
    have, and every other pod on the spot node. *)
Definition mixed_DescribePod (name namespace : string) : result string :=
  if String.eqb name "g" then Ok "ghost" else Ok "n1".

Definition pods_mixed : list PodMetrics :=
  [pod_of "a" 1000 1000; pod_of "g" 2000 2000; pod_of "b" 3000 3000].

(** Three containers with fractions of a unit of memory and of storage. *)
Definition three_containers : list ContainerMetrics :=
  [ {| Usage_Cpu := 100; Usage_Memory := 1500000000;
       Usage_StorageEphemeral := 500000000 |};
    {| Usage_Cpu := 200; Usage_Memory := 1700000000;
       Usage_StorageEphemeral := 700000000 |};
    {| Usage_Cpu := 300; Usage_Memory := 900000000;
       Usage_StorageEphemeral := 0 |} ].

(** * Properties *)

(** ** The log writer *)

Lemma value_bind {A B} (m : Logged A) (k : A -> Logged B) :
  value (m ≫= k) = value (k (value m)).
Proof.
  destruct m as [a l1]. unfold value, mbind, Logged_bind. simpl.
  destruct (k a); reflexivity.
Qed.

Lemma warnings_bind {A B} (m : Logged A) (k : A -> Logged B) :
  warnings (m ≫= k) = warnings m ++ warnings (k (value m)).
Proof.
  destruct m as [a l1]. unfold warnings, value, mbind, Logged_bind. simpl.
  destruct (k a); reflexivity.
Qed.

Lemma value_ret {A} (a : A) : value (ret a) = a.
Proof. reflexivity. Qed.

(** ** The lower limits *)

(** C6: every component below its floor (250 mCPU, 500 MiB of memory, 10 MiB
    of storage) is raised to the floor and every other component is returned
    as it is; (1000,1000,1000) is unchanged and (249,499,9) becomes
    (250,500,10). *)
Theorem ValidateLowerLimits_floors (mCPU memory storage : Z) :
  (let '(c, m, s) := ValidateLowerLimits mCPU memory storage in
   (mCPU < 250 /\ c = 250 \/ 250 <= mCPU /\ c = mCPU)
   /\ (memory < 500 /\ m = 500 \/ 500 <= memory /\ m = memory)
   /\ (storage < 10 /\ s = 10 \/ 10 <= storage /\ s = storage))
  /\ ValidateLowerLimits 1000 1000 1000 = (1000, 1000, 1000)
  /\ ValidateLowerLimits 249 499 9 = (250, 500, 10).
Proof.
  split; [| split; reflexivity].
  unfold ValidateLowerLimits.
  destruct (Z.ltb_spec mCPU 250), (Z.ltb_spec memory 500), (Z.ltb_spec storage 10);
    repeat split; solve [left; split; [lia | reflexivity]
                        | right; split; [lia | reflexivity]].
Qed.

Lemma ValidateLowerLimits_max (mCPU memory storage : Z) :
  ValidateLowerLimits mCPU memory storage
  = (Z.max 250 mCPU, Z.max 500 memory, Z.max 10 storage).
Proof.
  unfold ValidateLowerLimits.
  destruct (Z.ltb_spec mCPU 250), (Z.ltb_spec memory 500), (Z.ltb_spec storage 10);
    repeat f_equal; lia.
Qed.

(** ** The classifier *)

(** The code and the ordered rules agree on every input, on the class and on
    the lines that are logged. *)
Lemma DecideComputeClass_rules (workload : string) (mCPU memory : Z) (arm64 : bool) :
  DecideComputeClass workload mCPU memory arm64
  = (let (class, warn) := Spec.classify (ratio_of memory mCPU) mCPU memory arm64 in
     (class, if warn then [Spec.warning workload arm64] else [])).
Proof.
  unfold DecideComputeClass, Spec.classify, Spec.rules, Spec.first_match.
  destruct arm64.
  - unfold arm_out_of_range.
    destruct (Float64.neqb (ratio_of memory mCPU) 4 || (43000 <? mCPU)
              || (172000 <? memory)); reflexivity.
  - destruct ((1 <=? ratio_of memory mCPU)%float && (ratio_of memory mCPU <=? 6.5)%float
              && (mCPU <=? 30000) && (memory <=? 110000)); [reflexivity |].
    destruct ((ratio_of memory mCPU =? 4)%float && (mCPU <=? 54000)
              && (memory <=? 216000)); [reflexivity |].
    destruct ((1 <=? ratio_of memory mCPU)%float && (ratio_of memory mCPU <=? 8)%float
              && ((30000 <? mCPU) || (110000 <? memory))); reflexivity.
Qed.

(** C4: on an input with at least 250 mCPU the classifier returns the class
    of the first rule that matches, in the order ARM, Regular, ScaleOut,
    Balanced, with Regular as the fallback, where the ratio is the rounded-up
    quotient of memory by CPU; it warns exactly when the ARM request is out
    of its envelope or when no rule matches. *)
Theorem DecideComputeClass_first_match
  (workload : string) (mCPU memory : Z) (arm64 : bool) :
  250 <= mCPU ->
  let ratio := Float64.Ceil (Float64.of_int memory / Float64.of_int mCPU)%float in
  value (DecideComputeClass workload mCPU memory arm64)
  = (if arm64 then COMPUTE_CLASS_SCALEOUT_ARM
     else default COMPUTE_CLASS_REGULAR (Spec.first_match (Spec.rules ratio mCPU memory)))
  /\ warnings (DecideComputeClass workload mCPU memory arm64)
     = (if arm64 then
          if Float64.neqb ratio 4 || (43000 <? mCPU) || (172000 <? memory)
          then [arm_range_warning workload] else []
        else
          match Spec.first_match (Spec.rules ratio mCPU memory) with
          | Some _ => []
          | None => [no_class_warning workload]
          end).
Proof.
  intros _ ratio. rewrite DecideComputeClass_rules.
  change (ratio_of memory mCPU) with ratio.
  unfold Spec.classify. destruct arm64.
  - simpl. destruct (Float64.neqb ratio 4 || (43000 <? mCPU) || (172000 <? memory));
      split; reflexivity.
  - destruct (Spec.first_match (Spec.rules ratio mCPU memory)); split; reflexivity.
Qed.

Lemma DecideComputeClass_first_match_witness :
  250 <= 35000
  /\ value (DecideComputeClass "test-pod" 35000 100000 false) = COMPUTE_CLASS_BALANCED
  /\ warnings (DecideComputeClass "test-pod" 35000 100000 false) = [].
Proof.
  split; [lia |].
  exact (DecideComputeClass_first_match "test-pod" 35000 100000 false ltac:(lia)).
Defined.

(** The class does not depend on the name of the workload, which is only
    used in the logged lines. *)
Lemma DecideComputeClass_name_irrelevant (w1 w2 : string) (mCPU memory : Z) (arm64 : bool) :
  value (DecideComputeClass w1 mCPU memory arm64)
  = value (DecideComputeClass w2 mCPU memory arm64).
Proof.
  rewrite !DecideComputeClass_rules.
  destruct (Spec.classify (ratio_of memory mCPU) mCPU memory arm64); reflexivity.
Qed.

(** C8: on every input with at least 250 mCPU the classifier returns one
    class, with no failure outcome: there is exactly one class it returns, and
    a second run on the same input returns the same class.  (The quotient is
    a float quotient: it yields an infinity or a NaN on a zero divisor, never
    a failure.) *)
Theorem DecideComputeClass_total_deterministic
  (workload : string) (mCPU memory : Z) (arm64 : bool) :
  250 <= mCPU ->
  (exists class : ComputeClass,
     value (DecideComputeClass workload mCPU memory arm64) = class
     /\ forall class' : ComputeClass,
          value (DecideComputeClass workload mCPU memory arm64) = class' ->
          class' = class)
  /\ forall (workload' : string) (mCPU' memory' : Z) (arm64' : bool),
       workload' = workload -> mCPU' = mCPU -> memory' = memory -> arm64' = arm64 ->
       DecideComputeClass workload' mCPU' memory' arm64'
       = DecideComputeClass workload mCPU memory arm64.
Proof.
  intros _. split.
  - exists (value (DecideComputeClass workload mCPU memory arm64)).
    split; [reflexivity | intros class' H; symmetry; exact H].
  - intros workload' mCPU' memory' arm64' -> -> -> ->. reflexivity.
Qed.

Lemma DecideComputeClass_total_deterministic_witness :
  250 <= 20000
  /\ exists class : ComputeClass,
       value (DecideComputeClass "test-pod" 20000 80000 true) = class
       /\ forall class' : ComputeClass,
            value (DecideComputeClass "test-pod" 20000 80000 true) = class' ->
            class' = class.
Proof.
  split; [lia |].
  exact (proj1 (DecideComputeClass_total_deterministic "test-pod" 20000 80000 true
                  ltac:(lia))).
Defined.

(** The three cases of [TestDecideComputeClass]. *)
Example TestDecideComputeClass :
  value (DecideComputeClass "test-pod" 10000 10000 false) = COMPUTE_CLASS_REGULAR
  /\ value (DecideComputeClass "test-pod" 35000 100000 false) = COMPUTE_CLASS_BALANCED
  /\ value (DecideComputeClass "test-pod" 20000 80000 true) = COMPUTE_CLASS_SCALEOUT_ARM.
Proof. repeat split; vm_compute; reflexivity. Qed.

(** One input for each rule, in the order of the rules, and the two ARM
    cases. *)
Example DecideComputeClass_each_rule :
  DecideComputeClass "w" 4000 16000 false = (COMPUTE_CLASS_REGULAR, [])
  /\ DecideComputeClass "w" 40000 160000 false = (COMPUTE_CLASS_SCALEOUT, [])
  /\ DecideComputeClass "w" 40000 80000 false = (COMPUTE_CLASS_BALANCED, [])
  /\ DecideComputeClass "w" 250 5000 false
     = (COMPUTE_CLASS_REGULAR, [no_class_warning "w"])
  /\ DecideComputeClass "w" 20000 80000 true = (COMPUTE_CLASS_SCALEOUT_ARM, [])
  /\ DecideComputeClass "w" 20000 80001 true
     = (COMPUTE_CLASS_SCALEOUT_ARM, [arm_range_warning "w"]).
Proof. repeat split; vm_compute; reflexivity. Qed.

(** Without the lower limit, a zero divisor gives an infinite ratio (or a NaN
    for 0/0), no failure: no rule matches and the fallback is taken. *)
Example DecideComputeClass_zero_cpu :
  ratio_of 5000 0 = infinity
  /\ DecideComputeClass "w" 0 5000 false
     = (COMPUTE_CLASS_REGULAR, [no_class_warning "w"])
  /\ PrimFloat.is_nan (ratio_of 0 0) = true
  /\ DecideComputeClass "w" 0 0 false
     = (COMPUTE_CLASS_REGULAR, [no_class_warning "w"]).
Proof. repeat split; vm_compute; reflexivity. Qed.

(** ** The pricing engine *)

(** Every branch computes the same expression, from the pair of unit prices
    it reads and the one storage price, and logs at most the ARM warning. *)
Lemma CalculatePricing_unit_prices (cpu_m memory_m storage_m : Z) (pricing : ap_pricing)
  (class : ComputeClass) (spot : bool) :
  value (CalculatePricing cpu_m memory_m storage_m pricing class spot)
  = cost_of (fst (unit_prices pricing class spot)) (snd (unit_prices pricing class spot))
      (storage_price pricing) cpu_m memory_m storage_m.
Proof.
  destruct spot, class; try reflexivity; unfold CalculatePricing.
  - destruct ((spot_arm_cpu_scaleout_price pricing =? 0)%float
              || (spot_arm_memory_scaleout_price pricing =? 0)%float); reflexivity.
  - destruct ((cpu_arm_scaleout_price pricing =? 0)%float
              || (memory_arm_scaleout_price pricing =? 0)%float); reflexivity.
Qed.

(** C7: for each of the four classes and both billing modes the cost is
    cpuPrice * cpuMilli / 1000 + memoryPrice * memoryMiB / 1000
    + storagePrice * storageMiB / 1000 for the pair of unit prices the branch
    reads, and the storage price is the one [storage_price] field in all
    eight cases. *)
Theorem CalculatePricing_formula (cpu_m memory_m storage_m : Z) (pricing : ap_pricing)
  (class : ComputeClass) (spot : bool) :
  let (cpuPrice, memoryPrice) := unit_prices pricing class spot in
  let storagePrice := storage_price pricing in
  value (CalculatePricing cpu_m memory_m storage_m pricing class spot)
  = (cpuPrice * Float64.of_int cpu_m / 1000
     + memoryPrice * Float64.of_int memory_m / 1000
     + storagePrice * Float64.of_int storage_m / 1000)%float.
Proof.
  rewrite CalculatePricing_unit_prices.
  destruct (unit_prices pricing class spot). reflexivity.
Qed.

(** The three cases of [TestCalculatePricing], within the test's threshold. *)
Example TestCalculatePricing :
  almostEqual
    (value (CalculatePricing 4000 16000 10000 test_pricing
              (value (DecideComputeClass "test-pod" 4000 16000 false)) false))
    0.3313796 = true
  /\ almostEqual
       (value (CalculatePricing 40000 80000 10000 test_pricing
                 (value (DecideComputeClass "test-pod" 40000 80000 false)) false))
       4.0601700 = true
  /\ almostEqual
       (value (CalculatePricing 25000 100000 10000 test_pricing
                 (value (DecideComputeClass "test-pod" 25000 100000 false)) true))
       0.6209660 = true.
Proof. repeat split; vm_compute; reflexivity. Qed.

(** C1, on the code: with the spot flag set, a Balanced workload is priced
    from [spot_cpu_price] and [spot_memory_price], the pair of the Regular
    class, and the two Balanced spot fields are not read.  With the prices of
    the test table, 40000 mCPU and 80000 MiB on a spot node cost 0.840914 an
    hour, where the Balanced spot prices give 1.217346. *)
Theorem CalculatePricing_spot_balanced_reads_regular :
  (forall (cpu_m memory_m storage_m : Z) (pricing : ap_pricing),
     CalculatePricing cpu_m memory_m storage_m pricing COMPUTE_CLASS_BALANCED true
     = CalculatePricing cpu_m memory_m storage_m pricing COMPUTE_CLASS_REGULAR true)
  /\ value (CalculatePricing 40000 80000 10000 test_pricing COMPUTE_CLASS_BALANCED true)
     = cost_of (spot_cpu_price test_pricing) (spot_memory_price test_pricing)
         (storage_price test_pricing) 40000 80000 10000
  /\ almostEqual
       (value (CalculatePricing 40000 80000 10000 test_pricing COMPUTE_CLASS_BALANCED true))
       0.840914 = true
  /\ almostEqual
       (cost_of (spot_cpu_balanced_price test_pricing)
          (spot_memory_balanced_price test_pricing)
          (storage_price test_pricing) 40000 80000 10000)
       1.217346 = true
  /\ value (CalculatePricing 40000 80000 10000 test_pricing COMPUTE_CLASS_BALANCED true)
     <> cost_of (spot_cpu_balanced_price test_pricing)
          (spot_memory_balanced_price test_pricing)
          (storage_price test_pricing) 40000 80000 10000.
Proof.
  split; [reflexivity |].
  repeat split; try (vm_compute; reflexivity).
  vm_compute. discriminate.
Qed.

(** Apart from Balanced on spot, every class and billing mode reads its own
    pair. *)
Lemma unit_prices_dedicated (pricing : ap_pricing) (class : ComputeClass) (spot : bool) :
  (class, spot) <> (COMPUTE_CLASS_BALANCED, true) ->
  unit_prices pricing class spot = dedicated_prices pricing class spot.
Proof. destruct spot, class; intros H; try reflexivity. contradiction H; reflexivity. Qed.

(** ** Degradation: warnings, never failures *)

Lemma CalculatePricing_arm (cpu_m memory_m storage_m : Z) (pricing : ap_pricing)
  (spot : bool) :
  CalculatePricing cpu_m memory_m storage_m pricing COMPUTE_CLASS_SCALEOUT_ARM spot
  = (cost_of (fst (arm_prices pricing spot)) (snd (arm_prices pricing spot))
       (storage_price pricing) cpu_m memory_m storage_m,
     if (fst (arm_prices pricing spot) =? 0)%float
        || (snd (arm_prices pricing spot) =? 0)%float
     then [arm_price_warning pricing] else []).
Proof.
  destruct spot; unfold CalculatePricing, arm_prices; simpl fst; simpl snd.
  - destruct ((spot_arm_cpu_scaleout_price pricing =? 0)%float
              || (spot_arm_memory_scaleout_price pricing =? 0)%float); reflexivity.
  - destruct ((cpu_arm_scaleout_price pricing =? 0)%float
              || (memory_arm_scaleout_price pricing =? 0)%float); reflexivity.
Qed.

(** C10: a degraded input gives a result and a warning, not a failure.  When
    a component of the ARM pair that is used is zero, the price is still the
    cost computed from that pair, after one warning; when no rule of the
    classifier matches, the class is Regular, after one warning. *)
Theorem degradation_warns_and_proceeds :
  (forall (cpu_m memory_m storage_m : Z) (pricing : ap_pricing) (spot : bool),
     let (cpuPrice, memoryPrice) := arm_prices pricing spot in
     (cpuPrice =? 0)%float || (memoryPrice =? 0)%float = true ->
     CalculatePricing cpu_m memory_m storage_m pricing COMPUTE_CLASS_SCALEOUT_ARM spot
     = (cost_of cpuPrice memoryPrice (storage_price pricing) cpu_m memory_m storage_m,
        [arm_price_warning pricing]))
  /\ (forall (workload : string) (mCPU memory : Z),
        Spec.first_match (Spec.rules (ratio_of memory mCPU) mCPU memory) = None ->
        DecideComputeClass workload mCPU memory false
        = (COMPUTE_CLASS_REGULAR, [no_class_warning workload])).
Proof.
  split.
  - intros cpu_m memory_m storage_m pricing spot.
    rewrite CalculatePricing_arm.
    destruct (arm_prices pricing spot) as [cpuPrice memoryPrice]. simpl fst; simpl snd.
    intros ->. reflexivity.
  - intros workload mCPU memory H.
    rewrite DecideComputeClass_rules. unfold Spec.classify. rewrite H. reflexivity.
Qed.

Lemma degradation_warns_and_proceeds_witness :
  ((spot_arm_cpu_scaleout_price test_pricing =? 0)%float
   || (spot_arm_memory_scaleout_price test_pricing =? 0)%float = true
   /\ CalculatePricing 20000 80000 10000 test_pricing COMPUTE_CLASS_SCALEOUT_ARM true
      = (cost_of 0 0 (storage_price test_pricing) 20000 80000 10000,
         ["ARM pricing is not available in this test-region-1 region."]))
  /\ (Spec.first_match (Spec.rules (ratio_of 5000 250) 250 5000) = None
      /\ DecideComputeClass "test-pod" 250 5000 false
         = (COMPUTE_CLASS_REGULAR,
            ["Couldn't find a matching compute class for test-pod. Defaulting to 'Regular'. Please check manually.
"])).
Proof.
  split.
  - split; [vm_compute; reflexivity |].
    exact (proj1 degradation_warns_and_proceeds 20000 80000 10000 test_pricing true
             ltac:(vm_compute; reflexivity)).
  - split; [vm_compute; reflexivity |].
    exact (proj2 degradation_warns_and_proceeds "test-pod" 250 5000
             ltac:(vm_compute; reflexivity)).
Defined.

(** The zero cost line: with no ARM prices and no storage, the cost is 0. *)
Example CalculatePricing_arm_unpriced :
  value (CalculatePricing 20000 80000 0 test_pricing COMPUTE_CLASS_SCALEOUT_ARM false)
  = 0%float.
Proof. vm_compute. reflexivity. Qed.

(** ** The catalog: the ARM spot fields *)

Lemma assign_keeps_spot_arm (f : price_field) (price : float) (p : ap_pricing) :
  is_spot_arm_field f = false ->
  spot_arm_cpu_scaleout_price (assign f price p) = spot_arm_cpu_scaleout_price p
  /\ spot_arm_memory_scaleout_price (assign f price p) = spot_arm_memory_scaleout_price p.
Proof. destruct f; intros H; try discriminate H; split; reflexivity. Qed.

(** The two last cases repeat the descriptions of the eighth and ninth case,
    so the switch never reaches them. *)
Lemma switch_on_never_spot_arm (region tag : string) (f : price_field) :
  switch_on tag (sku_cases region) = Some f -> is_spot_arm_field f = false.
Proof.
  unfold sku_cases, switch_on.
  repeat (destruct (String.eqb tag _);
          [intros [= <-]; reflexivity |]).
  discriminate.
Qed.

Lemma switch_on_arm_spot_descriptions (region : string) :
  switch_on (case_of "Autopilot Scale-Out Arm Spot Pod Memory Requests" region)
    (sku_cases region) = Some F_memory_arm_scaleout_price
  /\ switch_on (case_of "Autopilot Scale-Out Arm Spot Pod mCPU Requests" region)
       (sku_cases region) = Some F_cpu_arm_scaleout_price.
Proof.
  split.
  - change (switch_on (case_of "Autopilot Scale-Out Arm Spot Pod Memory Requests" region)
              (sku_cases region))
      with (if String.eqb
                 (case_of "Autopilot Scale-Out Arm Spot Pod Memory Requests" region)
                 (case_of "Autopilot Scale-Out Arm Spot Pod Memory Requests" region)
            then Some F_memory_arm_scaleout_price
            else switch_on
                   (case_of "Autopilot Scale-Out Arm Spot Pod Memory Requests" region)
                   (skipn 8 (sku_cases region))).
    rewrite String.eqb_refl. reflexivity.
  - change (switch_on (case_of "Autopilot Scale-Out Arm Spot Pod mCPU Requests" region)
              (sku_cases region))
      with (if String.eqb
                 (case_of "Autopilot Scale-Out Arm Spot Pod mCPU Requests" region)
                 (case_of "Autopilot Scale-Out Arm Spot Pod mCPU Requests" region)
            then Some F_cpu_arm_scaleout_price
            else switch_on
                   (case_of "Autopilot Scale-Out Arm Spot Pod mCPU Requests" region)
                   (skipn 9 (sku_cases region))).
    rewrite String.eqb_refl. reflexivity.
Qed.

Lemma price_sku_keeps_spot_arm (region : string) (p p' : ap_pricing) (sku : Sku) :
  price_sku region p sku = Returned p' ->
  spot_arm_unset p -> spot_arm_unset p'.
Proof.
  unfold price_sku, spot_arm_unset.
  destruct (negb (slices_Contains (ServiceRegions sku) region)).
  - intros [= <-]. tauto.
  - destruct (sku_price sku) as [price |]; [| discriminate].
    destruct (switch_on (Description sku) (sku_cases region)) as [f |] eqn:Hf.
    + intros [= <-] [Hc Hm].
      apply switch_on_never_spot_arm in Hf.
      destruct (assign_keeps_spot_arm f price p Hf) as [-> ->]. tauto.
    + intros [= <-]. tauto.
Qed.

Lemma price_skus_keeps_spot_arm (region : string) (skus : list (option Sku)) :
  forall p p' : ap_pricing,
    price_skus region p skus = Returned p' ->
    spot_arm_unset p -> spot_arm_unset p'.
Proof.
  induction skus as [| [sku |] rest IH]; intros p p'; simpl; [| | discriminate].
  - intros [= <-]. tauto.
  - destruct (price_sku region p sku) as [q |] eqn:Hq; [| discriminate].
    intros Hrest Hp. apply (IH q p' Hrest).
    exact (price_sku_keeps_spot_arm region p q sku Hq Hp).
Qed.

(** The function returns whenever no entry is nil and every SKU of the
    region has a first tiered rate with a unit price. *)
Lemma price_skus_returns (region : string) (skus : list (option Sku)) :
  forallb (passes region) skus = true ->
  forall p : ap_pricing, exists p' : ap_pricing, price_skus region p skus = Returned p'.
Proof.
  induction skus as [| entry rest IH]; simpl; intros H p.
  - exists p. reflexivity.
  - apply andb_prop in H. destruct H as [Hsku Hrest].
    destruct entry as [sku |]; [| discriminate Hsku].
    assert (exists q, price_sku region p sku = Returned q) as [q Hq].
    { unfold price_sku, sku_price, passes, priced in *.
      destruct (negb (slices_Contains (ServiceRegions sku) region)).
      - exists p. reflexivity.
      - simpl in Hsku.
        destruct (first_expression sku) as [e |]; [| discriminate].
        destruct (first_unit_price e); [| discriminate].
        destruct (switch_on (Description sku) (sku_cases region)); eexists; reflexivity. }
    rewrite Hq. apply (IH Hrest).
Qed.

Example GetAutopilotPricing_arm_catalog :
  GetAutopilotPricing "us-central1" (Listed arm_catalog)
  = Returned (arm_catalog_pricing, None).
Proof. vm_compute. reflexivity. Qed.

(** C5: whatever the catalog, the record that [GetAutopilotPricing] returns
    has both ARM spot prices at zero, and it does return one when no entry of
    the catalog is nil and every SKU of the region carries a unit price.  The descriptions "Autopilot Scale-Out
    Arm Spot Pod Memory Requests" and "... mCPU Requests" are routed by their
    first occurrence to the on-demand ARM fields, and no description is
    routed to an ARM spot field. *)
Theorem GetAutopilotPricing_spot_arm_zero :
  (forall (region : string) (reply : billing_reply) (pricing : ap_pricing)
          (err : option string),
     GetAutopilotPricing region reply = Returned (pricing, err) ->
     spot_arm_cpu_scaleout_price pricing = 0%float
     /\ spot_arm_memory_scaleout_price pricing = 0%float)
  /\ (forall (region : string) (skus : list (option Sku)),
        forallb (fun entry =>
                   match entry with
                   | Some sku => negb (slices_Contains (ServiceRegions sku) region)
                                 || priced sku
                   | None => false
                   end) skus = true ->
        exists pricing : ap_pricing,
          GetAutopilotPricing region (Listed skus) = Returned (pricing, None)
          /\ spot_arm_cpu_scaleout_price pricing = 0%float
          /\ spot_arm_memory_scaleout_price pricing = 0%float)
  /\ (forall region : string,
        switch_on (case_of "Autopilot Scale-Out Arm Spot Pod Memory Requests" region)
          (sku_cases region) = Some F_memory_arm_scaleout_price
        /\ switch_on (case_of "Autopilot Scale-Out Arm Spot Pod mCPU Requests" region)
             (sku_cases region) = Some F_cpu_arm_scaleout_price)
  /\ (forall region description : string,
        switch_on description (sku_cases region) <> Some F_spot_arm_cpu_scaleout_price
        /\ switch_on description (sku_cases region)
           <> Some F_spot_arm_memory_scaleout_price).
Proof.
  assert (forall (region : string) (reply : billing_reply) (pricing : ap_pricing)
                 (err : option string),
            GetAutopilotPricing region reply = Returned (pricing, err) ->
            spot_arm_unset pricing) as Hzero.
  { intros region reply pricing err. unfold GetAutopilotPricing.
    destruct reply as [e | e | skus].
    - intros [= <- _]. split; reflexivity.
    - intros [= <- _]. split; reflexivity.
    - destruct (price_skus region (zero_pricing region) skus) as [p |] eqn:Hp;
        [| discriminate].
      intros [= <- _].
      apply (price_skus_keeps_spot_arm region skus _ _ Hp). split; reflexivity. }
  split; [exact Hzero | split; [| split]].
  - intros region skus Hpriced.
    destruct (price_skus_returns region skus Hpriced (zero_pricing region)) as [p Hp].
    assert (GetAutopilotPricing region (Listed skus) = Returned (p, None)) as Hret.
    { unfold GetAutopilotPricing. rewrite Hp. reflexivity. }
    exists p. split; [exact Hret |]. exact (Hzero _ _ _ _ Hret).
  - exact switch_on_arm_spot_descriptions.
  - intros region description.
    split; intros H; apply switch_on_never_spot_arm in H; discriminate H.
Qed.

Lemma GetAutopilotPricing_spot_arm_zero_witness :
  GetAutopilotPricing "us-central1" (Listed arm_catalog)
  = Returned (arm_catalog_pricing, None)
  /\ spot_arm_cpu_scaleout_price arm_catalog_pricing = 0%float
  /\ spot_arm_memory_scaleout_price arm_catalog_pricing = 0%float.
Proof.
  split; [vm_compute; reflexivity |].
  exact (proj1 GetAutopilotPricing_spot_arm_zero "us-central1" (Listed arm_catalog)
           arm_catalog_pricing None ltac:(vm_compute; reflexivity)).
Defined.

(** ** The pass over the workloads *)

(** What the updates of a list of workloads leave at one node. *)
Lemma fold_add_to_node_lookup (workloads : list Workload.t) (name : string) :
  forall (nodes : gmap string Node.t) (entry : Node.t),
    nodes !! name = Some entry ->
    exists entry' : Node.t,
      fold_left add_to_node workloads nodes !! name = Some entry'
      /\ Node.Workloads entry' = Node.Workloads entry ++ hosted name workloads
      /\ Node.Cost entry' = running_total (Node.Cost entry) (hosted name workloads)
      /\ Node.Spot entry' = Node.Spot entry
      /\ Node.InstanceType entry' = Node.InstanceType entry.
Proof.
  induction workloads as [| w rest IH]; intros nodes entry Hentry.
  - exists entry. simpl. rewrite app_nil_r. tauto.
  - simpl fold_left. unfold hosted. rewrite filter_cons. fold (hosted name rest).
    destruct (decide (Workload.Node_name w = name)) as [Heq | Hne].
    + assert (add_to_node nodes w !! name
              = Some (Node.host entry w (Workload.Cost w))) as Hstep.
      { unfold add_to_node. rewrite Heq, Hentry. apply lookup_insert_eq. }
      destruct (IH _ _ Hstep) as (entry' & Hl & Hw & Hc & Hs & Ht).
      exists entry'. split; [exact Hl |].
      rewrite Hw, Hc, Hs, Ht. simpl. rewrite <- app_assoc. tauto.
    + assert (add_to_node nodes w !! name = Some entry) as Hstep.
      { unfold add_to_node.
        destruct (nodes !! Workload.Node_name w); [| exact Hentry].
        rewrite lookup_insert_ne by exact Hne. exact Hentry. }
      exact (IH _ _ Hstep).
Qed.


Section Pass.
Variable DescribePod : string -> string -> result string.
Variable pricing : ap_pricing.

Local Abbreviation described := (described DescribePod).
Local Abbreviation node_name_of := (node_name_of DescribePod).
Local Abbreviation planned := (planned DescribePod pricing).

(** A pass changes the workload list and the cost of a node, and nothing
    the classifier or the pricing engine reads. *)
Lemma add_to_node_kind (nodes : gmap string Node.t) (w : Workload.t) (name : string) :
  Node.InstanceType (node_at (add_to_node nodes w) name)
  = Node.InstanceType (node_at nodes name)
  /\ Node.Spot (node_at (add_to_node nodes w) name) = Node.Spot (node_at nodes name).
Proof.
  unfold add_to_node, node_at.
  destruct (nodes !! Workload.Node_name w) as [entry |] eqn:Hw; [| tauto].
  destruct (decide (Workload.Node_name w = name)) as [<- | Hne].
  - rewrite lookup_insert_eq, Hw. split; reflexivity.
  - rewrite lookup_insert_ne by exact Hne. tauto.
Qed.

Lemma workload_object_kind (nodes nodes' : gmap string Node.t) (v : PodMetrics)
  (name : string) :
  Node.InstanceType (node_at nodes' name) = Node.InstanceType (node_at nodes name) ->
  Node.Spot (node_at nodes' name) = Node.Spot (node_at nodes name) ->
  workload_object pricing nodes' v name = workload_object pricing nodes v name.
Proof. intros Ht Hs. unfold workload_object. rewrite Ht, Hs. reflexivity. Qed.

Lemma planned_add_to_node (nodes : gmap string Node.t) (w : Workload.t)
  (items : list PodMetrics) :
  planned (add_to_node nodes w) items = planned nodes items.
Proof.
  unfold planned. apply map_ext. intros v. f_equal.
  apply workload_object_kind; apply add_to_node_kind.
Qed.

Lemma populate_cons (v : PodMetrics) (rest : list PodMetrics)
  (nodes : gmap string Node.t) (workloads : list Workload.t) (node_name : string) :
  DescribePod (pm_Name v) (pm_Namespace v) = Ok node_name ->
  let w := value (workload_object pricing nodes v node_name) in
  value (populate DescribePod pricing (v :: rest) nodes workloads)
  = value (populate DescribePod pricing rest (add_to_node nodes w) (workloads ++ [w])).
Proof. intros Hd w. simpl. rewrite Hd. rewrite value_bind. reflexivity. Qed.

Lemma planned_cons (v : PodMetrics) (rest : list PodMetrics)
  (nodes : gmap string Node.t) (node_name : string) :
  DescribePod (pm_Name v) (pm_Namespace v) = Ok node_name ->
  planned nodes (v :: rest)
  = value (workload_object pricing nodes v node_name) :: planned nodes rest.
Proof. intros Hd. unfold planned. simpl. unfold node_name_of at 1. rewrite Hd. reflexivity. Qed.

(** The result of the loop when every pod is found. *)
Lemma populate_described (items : list PodMetrics) :
  forall (nodes : gmap string Node.t) (workloads : list Workload.t),
    forallb described items = true ->
    value (populate DescribePod pricing items nodes workloads)
    = (fold_left add_to_node (planned nodes items) nodes,
       Ok (workloads ++ planned nodes items)).
Proof.
  induction items as [| v rest IH]; intros nodes workloads Hd.
  - simpl. rewrite app_nil_r. reflexivity.
  - simpl in Hd. apply andb_prop in Hd. destruct Hd as [Hv Hrest].
    unfold described in Hv.
    destruct (DescribePod (pm_Name v) (pm_Namespace v)) as [node_name | err] eqn:Hd;
      [| discriminate].
    rewrite (populate_cons v rest nodes workloads node_name Hd).
    rewrite (planned_cons v rest nodes node_name Hd).
    rewrite IH by exact Hrest.
    rewrite planned_add_to_node, <- app_assoc. reflexivity.
Qed.


End Pass.

(** The order of processing shows in the last digits of a float64 total
    only: the same three workloads, of 0.1, 0.2 and 0.3 an hour, leave the
    node at 0.60000000000000009 in one order and at 0.59999999999999998 in
    the reverse order, and the two totals are equal within the threshold of
    the tests. *)
Lemma node_total_depends_on_order :
  Permutation pods_abc pods_cba
  /\ map Workload.Cost (planned example_DescribePod cpu_only_pricing example_nodes pods_abc)
     = [0.1; 0.2; 0.3]%float
  /\ map Workload.Cost (planned example_DescribePod cpu_only_pricing example_nodes pods_cba)
     = [0.3; 0.2; 0.1]%float
  /\ node_cost_after example_DescribePod cpu_only_pricing pods_abc example_nodes "n1"
     = Some 0.60000000000000009%float
  /\ node_cost_after example_DescribePod cpu_only_pricing pods_cba example_nodes "n1"
     = Some 0.59999999999999998%float
  /\ almostEqual 0.60000000000000009 0.59999999999999998 = true.
Proof.
  split.
  { unfold pods_abc, pods_cba. apply Permutation_sym, (Permutation_rev [_; _; _]). }
  split; [vm_compute; reflexivity |]. split; [vm_compute; reflexivity |].
  split; [vm_compute; reflexivity |]. split; vm_compute; reflexivity.
Qed.

(** The two totals are further apart than that threshold only at magnitudes
    no cluster has: costs of 2^53, 1 and 1, from a pod of 2^53 times the lower
    limit, add up to 2^53 in one order and to 2^53 + 2 in another. *)
Example node_total_gap_beyond_threshold :
  Permutation pods_big_first pods_big_last
  /\ map Workload.Cost
       (planned example_DescribePod four_pricing example_nodes pods_big_first)
     = [9007199254740992; 1; 1]%float
  /\ node_cost_after example_DescribePod four_pricing pods_big_first example_nodes "n1"
     = Some 9007199254740992%float
  /\ node_cost_after example_DescribePod four_pricing pods_big_last example_nodes "n1"
     = Some 9007199254740994%float.
Proof.
  split.
  { unfold pods_big_first, pods_big_last.
    apply (Permutation_cons_append [_; _]). }
  split; [vm_compute; reflexivity |]. split; vm_compute; reflexivity.
Qed.

(** A node that enters the pass with no workloads and no cost leaves it with
    the left-to-right sum of the costs on its list. *)
Lemma fresh_node_total (DescribePod : string -> string -> result string)
  (pricing : ap_pricing) (items : list PodMetrics) (nodes : gmap string Node.t)
  (name : string) (entry : Node.t) :
  forallb (described DescribePod) items = true ->
  nodes !! name = Some entry ->
  Node.Workloads entry = [] ->
  Node.Cost entry = 0%float ->
  exists entry' : Node.t,
    fst (value (PopulateWorkloads DescribePod pricing items nodes)) !! name = Some entry'
    /\ Node.Cost entry' = running_total 0 (Node.Workloads entry').
Proof.
  intros Hd Hentry Hws Hcost. unfold PopulateWorkloads.
  rewrite (populate_described DescribePod pricing items nodes [] Hd). simpl fst.
  destruct (fold_add_to_node_lookup (planned DescribePod pricing nodes items) name
              nodes entry Hentry) as (entry' & Hl & Hw & Hc & _).
  exists entry'. split; [exact Hl |].
  rewrite Hc, Hw, Hws, Hcost. reflexivity.
Qed.



(** ** The summary rows *)

Lemma DisplayWorkloadTable_rows (order : list Node.t) :
  DisplayWorkloadTable order
  = [ ("Total cost per cluster per hour", reported_total order);
      ("... 1 year commit", reported_1yr order);
      ("... with 3 year commit", reported_3yr order) ].
Proof.
  unfold DisplayWorkloadTable, reported_total, reported_1yr, reported_3yr.
  destruct (cluster_totals order). reflexivity.
Qed.

(** The costs of spot nodes never reach [total_cost]. *)
Lemma add_cost_spot (totals : float * float) (workloads : list Workload.t) :
  fst (fold_left (add_cost true) workloads totals) = fst totals.
Proof.
  revert totals. induction workloads as [| w rest IH]; intros [t s]; [reflexivity |].
  simpl. rewrite IH. reflexivity.
Qed.

Lemma fold_nodes_all_spot (order : list Node.t) :
  forallb Node.Spot order = true ->
  forall start : float * float,
    fst (fold_left
           (fun totals node =>
              fold_left (add_cost (Node.Spot node)) (Node.Workloads node) totals)
           order start)
    = fst start.
Proof.
  induction order as [| node rest IH]; intros H start; [reflexivity |].
  simpl in H. apply andb_prop in H. destruct H as [Hnode Hrest].
  simpl. rewrite (IH Hrest), Hnode. apply add_cost_spot.
Qed.

Lemma reported_total_all_spot (order : list Node.t) :
  forallb Node.Spot order = true -> reported_total order = CLUSTER_FEE.
Proof.
  intros H. unfold reported_total, cluster_totals.
  rewrite (fold_nodes_all_spot order H). reflexivity.
Qed.

Lemma fold_add_cost (spot : bool) (workloads : list Workload.t) :
  forall totals : float * float,
    fold_left (add_cost spot) workloads totals
    = if spot then (fst totals, running_total (snd totals) workloads)
      else (running_total (fst totals) workloads, snd totals).
Proof.
  induction workloads as [| w rest IH]; intros [t s].
  - destruct spot; reflexivity.
  - simpl. rewrite IH. destruct spot; reflexivity.
Qed.

Lemma running_total_app (start : float) (ws ws' : list Workload.t) :
  running_total start (ws ++ ws') = running_total (running_total start ws) ws'.
Proof. apply fold_left_app. Qed.

(** The two accumulators are separate sums: [total_cost] starts from the fee
    and takes the workloads of the nodes that are not spot, [total_cost_spot]
    starts from 0 and takes the workloads of the spot nodes. *)
Lemma cluster_totals_split (order : list Node.t) :
  cluster_totals order
  = (running_total CLUSTER_FEE (workloads_on false order),
     running_total 0 (workloads_on true order)).
Proof.
  unfold cluster_totals. generalize CLUSTER_FEE, 0%float.
  induction order as [| node rest IH]; intros t s; [reflexivity |].
  simpl. rewrite fold_add_cost, !running_total_app.
  destruct (Node.Spot node); simpl; rewrite IH; reflexivity.
Qed.

(** The two commitment rows, as the code computes them. *)
Lemma reported_commitment_figures (order : list Node.t) :
  let nonSpotTotal := running_total CLUSTER_FEE (workloads_on false order) in
  let spotTotal := running_total 0 (workloads_on true order) in
  reported_total order = nonSpotTotal
  /\ reported_1yr order = (spotTotal + nonSpotTotal * 0.8)%float
  /\ reported_3yr order = (spotTotal + nonSpotTotal * 0.55)%float.
Proof.
  unfold reported_total, reported_1yr, reported_3yr.
  rewrite cluster_totals_split. repeat split; reflexivity.
Qed.

(** C2, on the code: the row "Total cost per cluster per hour" shows
    [total_cost], the fee and the workloads of the nodes that are not spot;
    the spot total is added in the two commitment rows only.  For the cluster
    with one workload of 0.099242306 an hour on a spot node the reported
    total is the fee of 0.1 alone, not 0.199242306, and it is below the
    figure reported for the one-year commitment. *)
Theorem DisplayWorkloadTable_total_omits_spot :
  cluster_totals spot_cluster = (0.1, 0.099242306000000002)%float
  /\ DisplayWorkloadTable spot_cluster
     = [ ("Total cost per cluster per hour", 0.1%float);
         ("... 1 year commit", 0.17924230600000002%float);
         ("... with 3 year commit", 0.154242306%float) ]
  /\ reported_total spot_cluster
     <> (fst (cluster_totals spot_cluster) + snd (cluster_totals spot_cluster))%float
  /\ almostEqual (reported_total spot_cluster) 0.199242306 = false
  /\ (reported_total spot_cluster <? reported_1yr spot_cluster)%float = true.
Proof.
  split; [vm_compute; reflexivity |]. split; [vm_compute; reflexivity |].
  split; [vm_compute; discriminate |]. split; vm_compute; reflexivity.
Qed.

(** C3, on the code: with the total that is reported, the law fails as soon
    as a spot node hosts a workload.  For the same cluster, the one-year
    figure less the spot total is 0.08, and 0.8 times the reported total less
    the spot total is 0.0006; the three-year figures are 0.055 and 0.0004. *)
Theorem commitment_law_fails_with_spot :
  let total := reported_total spot_cluster in
  let spotTotal := snd (cluster_totals spot_cluster) in
  (0 <=? spotTotal)%float = true
  /\ (0 <=? total)%float = true
  /\ (reported_1yr spot_cluster - spotTotal)%float = 0.080000000000000016%float
  /\ (0.8 * (total - spotTotal))%float = 0.0006061552000000026%float
  /\ almostEqual (reported_1yr spot_cluster - spotTotal) (0.8 * (total - spotTotal))
     = false
  /\ (reported_3yr spot_cluster - spotTotal)%float = 0.054999999999999993%float
  /\ (0.55 * (total - spotTotal))%float = 0.0004167317000000018%float
  /\ almostEqual (reported_3yr spot_cluster - spotTotal) (0.55 * (total - spotTotal))
     = false.
Proof. repeat split; vm_compute; reflexivity. Qed.

(** * Further properties of the program *)

(** ** [main]: the region of the cluster *)

Lemma strings_Split_cons (s : string) (sep : ascii) :
  exists piece pieces, strings_Split s sep = piece :: pieces.
Proof.
  destruct s as [| c rest]; simpl; [eauto |].
  destruct (Ascii.eqb c sep); [eauto |].
  destruct (strings_Split rest sep); eauto.
Qed.

(** Joining the pieces with the separator gives the string back. *)
Lemma strings_Join_Split (s : string) (sep : ascii) :
  strings_Join (strings_Split s sep) (String sep EmptyString) = s.
Proof.
  unfold strings_Join. induction s as [| c rest IH]; [reflexivity |].
  simpl strings_Split.
  destruct (strings_Split_cons rest sep) as (piece & pieces & Hrest).
  rewrite Hrest in *.
  destruct (Ascii.eqb_spec c sep) as [-> | Hne].
  - change (String.concat (String sep "") ("" :: piece :: pieces))
      with (String sep (String.concat (String sep "") (piece :: pieces))).
    rewrite IH. reflexivity.
  - transitivity (String c (String.concat (String sep "") (piece :: pieces))).
    + destruct pieces as [| piece' pieces]; reflexivity.
    + rewrite IH. reflexivity.
Qed.

Lemma strings_Split_free (s : string) (sep : ascii) :
  free_of sep s = true -> strings_Split s sep = [s].
Proof.
  induction s as [| c rest IH]; [reflexivity |]. simpl.
  destruct (Ascii.eqb c sep); [discriminate |]. simpl.
  intros H. rewrite (IH H). reflexivity.
Qed.

Lemma strings_Split_app (r s : string) (sep : ascii) :
  strings_Split (r +:+ String sep s) sep = strings_Split r sep ++ strings_Split s sep.
Proof.
  induction r as [| c rest IH]; simpl.
  - rewrite Ascii.eqb_refl. reflexivity.
  - rewrite IH. destruct (Ascii.eqb c sep); [reflexivity |].
    destruct (strings_Split_cons rest sep) as (piece & pieces & ->). reflexivity.
Qed.

(** The region computed by [main] is the zone without its last dash and
    what follows it; a zone without a dash gives the empty region. *)
Theorem clusterRegion_drops_last_piece (region suffix : string) :
  free_of "-" suffix = true ->
  clusterRegion (region +:+ "-" +:+ suffix) = region
  /\ clusterRegion suffix = "".
Proof.
  intros Hfree. unfold clusterRegion. split.
  - change ("-" +:+ suffix) with (String "-" suffix).
    rewrite strings_Split_app, (strings_Split_free suffix "-" Hfree).
    rewrite length_app. simpl length.
    replace (length (strings_Split region "-") + 1 - 1)%nat
      with (length (strings_Split region "-") + 0)%nat by lia.
    rewrite firstn_app_2. simpl firstn. rewrite app_nil_r.
    apply strings_Join_Split.
  - rewrite (strings_Split_free suffix "-" Hfree). reflexivity.
Qed.

Lemma clusterRegion_drops_last_piece_witness :
  free_of "-" "a" = true
  /\ clusterRegion "us-central1-a" = "us-central1"
  /\ clusterRegion "a" = "".
Proof.
  split; [reflexivity |].
  exact (clusterRegion_drops_last_piece "us-central1" "a" eq_refl).
Defined.

(** For a cluster whose location is a region, not a zone, the last piece of
    the region is dropped. *)
Example clusterRegion_of_a_region : clusterRegion "us-central1" = "us".
Proof. reflexivity. Qed.

(** ** The lower limits *)

(** The limits are applied once and for all: the result is at or above the
    three floors, never below the input, and applying the limits to it again
    changes nothing. *)
Theorem ValidateLowerLimits_idempotent (mCPU memory storage : Z) :
  let '(c, m, s) := ValidateLowerLimits mCPU memory storage in
  ValidateLowerLimits c m s = (c, m, s)
  /\ 250 <= c /\ 500 <= m /\ 10 <= s
  /\ mCPU <= c /\ memory <= m /\ storage <= s.
Proof.
  rewrite ValidateLowerLimits_max. cbv beta iota.
  rewrite ValidateLowerLimits_max.
  split; [f_equal; [f_equal |]; lia | lia].
Qed.

(** ** The classifier: which class for which usage *)

(** A float equal to 4 in the sense of [==] is the float 4. *)
Lemma float_eqb_4 (r : float) : (r =? 4)%float = true -> r = 4%float.
Proof.
  rewrite FloatAxioms.eqb_spec. intros H. apply Prim2SF_inj.
  change (Prim2SF 4) with (S754_finite false 4503599627370496 (-50)) in *.
  unfold SFeqb, SFcompare in H.
  destruct (Prim2SF r) as [s | s | | s m e];
    try discriminate H; try (destruct s; discriminate H).
  destruct s; [discriminate H |].
  destruct (e ?= -50) eqn:He; try discriminate H.
  destruct (Pos.compare_cont Eq m 4503599627370496) eqn:Hm; try discriminate H.
  apply Z.compare_eq in He. apply Pos.compare_eq in Hm. subst e m. reflexivity.
Qed.

Lemma ratio_4_in_regular_range (r : float) :
  (r =? 4)%float = true -> (1 <=? r)%float && (r <=? 6.5)%float = true.
Proof. intros H. rewrite (float_eqb_4 r H). reflexivity. Qed.

(** The ARM class is given to the workloads of ARM nodes and to no other:
    the result is [COMPUTE_CLASS_SCALEOUT_ARM] exactly when the flag is set. *)
Theorem DecideComputeClass_arm_iff_flag
  (workload : string) (mCPU memory : Z) (arm64 : bool) :
  value (DecideComputeClass workload mCPU memory arm64) = COMPUTE_CLASS_SCALEOUT_ARM
  <-> arm64 = true.
Proof.
  rewrite DecideComputeClass_rules. unfold Spec.classify, Spec.rules, Spec.first_match.
  destruct arm64; [split; reflexivity |].
  repeat match goal with
         | |- context [if ?b then _ else _] => destruct b
         end; split; discriminate.
Qed.

(** On a node that is not ARM, a workload of at most 30000 mCPU and 110000
    MiB is always classified Regular, whatever its ratio: the Scale-Out rule
    needs a ratio of 4, which the Regular rule has taken before, and the
    Balanced rule needs more CPU or more memory. *)
Theorem DecideComputeClass_small_is_regular (workload : string) (mCPU memory : Z) :
  mCPU <= 30000 -> memory <= 110000 ->
  value (DecideComputeClass workload mCPU memory false) = COMPUTE_CLASS_REGULAR.
Proof.
  intros Hc Hm. rewrite DecideComputeClass_rules.
  unfold Spec.classify, Spec.rules, Spec.first_match.
  apply Z.leb_le in Hc, Hm. rewrite Hc, Hm.
  assert ((30000 <? mCPU) = false) as -> by (apply Z.ltb_ge, Z.leb_le, Hc).
  assert ((110000 <? memory) = false) as -> by (apply Z.ltb_ge, Z.leb_le, Hm).
  rewrite !andb_true_r.
  destruct ((1 <=? ratio_of memory mCPU)%float && (ratio_of memory mCPU <=? 6.5)%float)
    eqn:Hreg; [reflexivity |].
  destruct (ratio_of memory mCPU =? 4)%float eqn:H4.
  - rewrite (ratio_4_in_regular_range _ H4) in Hreg. discriminate Hreg.
  - simpl. destruct ((1 <=? ratio_of memory mCPU)%float
                     && (ratio_of memory mCPU <=? 8)%float); reflexivity.
Qed.

Lemma DecideComputeClass_small_is_regular_witness :
  250 <= 30000 /\ 5000 <= 110000
  /\ value (DecideComputeClass "w" 250 5000 false) = COMPUTE_CLASS_REGULAR.
Proof.
  split; [lia |]. split; [lia |].
  exact (DecideComputeClass_small_is_regular "w" 250 5000 ltac:(lia) ltac:(lia)).
Defined.

(** The two larger classes are only given beyond the Regular limits: a
    Scale-Out workload has a ratio of exactly 4, at most 54000 mCPU and 216000
    MiB, and more than 30000 mCPU or 110000 MiB; a Balanced workload has a
    ratio from 1 to 8 and more than 30000 mCPU or 110000 MiB. *)
Theorem DecideComputeClass_large_classes (workload : string) (mCPU memory : Z)
  (arm64 : bool) :
  (value (DecideComputeClass workload mCPU memory arm64) = COMPUTE_CLASS_SCALEOUT ->
   ratio_of memory mCPU = 4%float /\ mCPU <= 54000 /\ memory <= 216000
   /\ (30000 < mCPU \/ 110000 < memory))
  /\ (value (DecideComputeClass workload mCPU memory arm64) = COMPUTE_CLASS_BALANCED ->
      (1 <=? ratio_of memory mCPU)%float = true
      /\ (ratio_of memory mCPU <=? 8)%float = true
      /\ (30000 < mCPU \/ 110000 < memory)).
Proof.
  rewrite DecideComputeClass_rules. unfold Spec.classify, Spec.rules, Spec.first_match.
  destruct arm64; [split; discriminate |].
  destruct ((1 <=? ratio_of memory mCPU)%float && (ratio_of memory mCPU <=? 6.5)%float
            && (mCPU <=? 30000) && (memory <=? 110000)) eqn:Hreg;
    [split; discriminate |].
  destruct ((ratio_of memory mCPU =? 4)%float && (mCPU <=? 54000)
            && (memory <=? 216000)) eqn:Hso.
  - split; [intros _ | discriminate].
    apply andb_prop in Hso. destruct Hso as [Hso Hm].
    apply andb_prop in Hso. destruct Hso as [H4 Hc].
    apply Z.leb_le in Hc, Hm.
    split; [exact (float_eqb_4 _ H4) |]. split; [exact Hc |]. split; [exact Hm |].
    rewrite (ratio_4_in_regular_range _ H4) in Hreg. simpl in Hreg.
    destruct (Z.leb_spec mCPU 30000); [| left; lia].
    destruct (Z.leb_spec memory 110000); [discriminate Hreg | right; lia].
  - destruct ((1 <=? ratio_of memory mCPU)%float && (ratio_of memory mCPU <=? 8)%float
              && ((30000 <? mCPU) || (110000 <? memory))) eqn:Hbal;
      [| split; discriminate].
    split; [discriminate | intros _].
    apply andb_prop in Hbal. destruct Hbal as [Hr Hbig].
    apply andb_prop in Hr. destruct Hr as [H1 H8].
    split; [exact H1 |]. split; [exact H8 |].
    apply orb_prop in Hbig. destruct Hbig as [H | H]; apply Z.ltb_lt in H; tauto.
Qed.

Lemma DecideComputeClass_large_classes_witness :
  value (DecideComputeClass "w" 40000 160000 false) = COMPUTE_CLASS_SCALEOUT
  /\ ratio_of 160000 40000 = 4%float /\ 40000 <= 54000 /\ 160000 <= 216000
  /\ (30000 < 40000 \/ 110000 < 160000).
Proof.
  split; [vm_compute; reflexivity |].
  exact (proj1 (DecideComputeClass_large_classes "w" 40000 160000 false)
           ltac:(vm_compute; reflexivity)).
Defined.

(** ** The pricing engine: when it warns *)

(** [CalculatePricing] logs nothing for the Regular, Balanced and Scale-Out
    classes; for the ARM class it logs its one line exactly when a price of
    the ARM pair of the billing mode is zero. *)
Theorem CalculatePricing_warns_only_for_unpriced_arm
  (cpu_m memory_m storage_m : Z) (pricing : ap_pricing) (class : ComputeClass)
  (spot : bool) :
  warnings (CalculatePricing cpu_m memory_m storage_m pricing class spot)
  = if decide (class = COMPUTE_CLASS_SCALEOUT_ARM)
    then if (fst (arm_prices pricing spot) =? 0)%float
            || (snd (arm_prices pricing spot) =? 0)%float
         then [arm_price_warning pricing] else []
    else [].
Proof.
  destruct class; try (destruct spot; reflexivity).
  rewrite CalculatePricing_arm. reflexivity.
Qed.

(** ** The catalog *)


Lemma region_assign (g : price_field) (price : float) (p : ap_pricing) :
  region (assign g price p) = region p.
Proof. reflexivity. Qed.






(** The SKUs of other regions play no part, priced or not. *)
Lemma price_skus_in_region (reg : string) (skus : list (option Sku)) :
  forall p : ap_pricing,
    price_skus reg p skus = price_skus reg p (List.filter (of_region reg) skus).
Proof.
  induction skus as [| [sku |] rest IH]; intros p; [reflexivity | | reflexivity].
  simpl. unfold in_region at 1.
  destruct (slices_Contains (ServiceRegions sku) reg) eqn:Hin.
  - simpl. destruct (price_sku reg p sku); [apply IH | reflexivity].
  - unfold price_sku at 1. rewrite Hin. simpl. apply IH.
Qed.

(** [GetAutopilotPricing] gives the same result on a catalog and on the
    catalog without its SKUs of other regions: such a SKU is skipped before
    anything else of it is read. *)
Theorem GetAutopilotPricing_other_regions_ignored (reg : string)
  (skus : list (option Sku)) :
  GetAutopilotPricing reg (Listed skus)
  = GetAutopilotPricing reg (Listed (List.filter (of_region reg) skus)).
Proof. unfold GetAutopilotPricing. rewrite <- price_skus_in_region. reflexivity. Qed.

Lemma price_skus_panics (reg : string) (skus : list (option Sku)) :
  forallb (passes reg) skus = false ->
  forall p : ap_pricing, price_skus reg p skus = Panicked.
Proof.
  induction skus as [| [sku |] rest IH]; simpl; intros H p;
    [discriminate | | reflexivity].
  destruct (price_sku reg p sku) as [q |] eqn:Hq; [| reflexivity].
  apply IH. apply andb_false_iff in H. destruct H as [H | H]; [| exact H].
  exfalso. unfold price_sku, sku_price, priced in *.
  destruct (negb (slices_Contains (ServiceRegions sku) reg)); [discriminate |].
  simpl in H.
  destruct (first_expression sku) as [e |]; [| discriminate].
  destruct (first_unit_price e); discriminate.
Qed.

Lemma forallb_false_exists {A} (f : A -> bool) (l : list A) :
  forallb f l = false <-> exists x : A, In x l /\ f x = false.
Proof.
  induction l as [| a rest IH]; simpl.
  - split; [discriminate | intros (x & [] & _)].
  - rewrite andb_false_iff, IH. split.
    + intros [Ha | (x & Hin & Hx)]; [exists a | exists x]; tauto.
    + intros (x & [<- | Hin] & Hx); [left; exact Hx | right; exists x; tauto].
Qed.

(** A nil entry of the catalog has no regions to read: the loop panics at
    it, whatever the region asked for and the entries before it. *)
Example GetAutopilotPricing_nil_entry :
  GetAutopilotPricing "us-central1" (Listed (arm_catalog ++ [None])) = Panicked
  /\ GetAutopilotPricing "europe-west1" (Listed [None]) = Panicked.
Proof. split; vm_compute; reflexivity. Qed.

(** [GetAutopilotPricing] panics on a catalog exactly when some entry is nil
    or is a SKU of the region without a first pricing info, expression,
    tiered rate or unit price, whatever the description of that SKU: the
    region is read first, then the price, and only then the description. *)
Theorem GetAutopilotPricing_panics_iff (reg : string) (skus : list (option Sku)) :
  GetAutopilotPricing reg (Listed skus) = Panicked
  <-> In None skus
      \/ exists sku : Sku,
           In (Some sku) skus /\ in_region reg sku = true /\ priced sku = false.
Proof.
  unfold GetAutopilotPricing. split.
  - intros H.
    destruct (forallb (passes reg) skus) eqn:Hall.
    + destruct (price_skus_returns reg skus Hall (zero_pricing reg)) as [p Hp].
      rewrite Hp in H. discriminate H.
    + apply forallb_false_exists in Hall. destruct Hall as ([sku |] & Hin & Hsku).
      * right. exists sku. unfold passes in Hsku.
        apply orb_false_iff in Hsku. destruct Hsku as [Hreg Hpriced].
        apply negb_false_iff in Hreg. tauto.
      * left. exact Hin.
  - intros H. rewrite (price_skus_panics reg skus); [reflexivity |].
    apply forallb_false_exists. destruct H as [Hnil | (sku & Hin & Hreg & Hpriced)].
    + exists None. split; [exact Hnil | reflexivity].
    + exists (Some sku). split; [exact Hin |].
      unfold passes. unfold in_region in Hreg. rewrite Hreg, Hpriced. reflexivity.
Qed.

(** Whatever the catalog, an ARM workload on a spot node is priced with a CPU
    price and a memory price of zero, its storage alone, and the warning is
    logged: the record never has ARM spot prices. *)
Theorem catalog_never_prices_arm_on_spot (reg : string) (reply : billing_reply)
  (pricing : ap_pricing) (err : option string) (cpu_m memory_m storage_m : Z) :
  GetAutopilotPricing reg reply = Returned (pricing, err) ->
  CalculatePricing cpu_m memory_m storage_m pricing COMPUTE_CLASS_SCALEOUT_ARM true
  = (cost_of 0 0 (storage_price pricing) cpu_m memory_m storage_m,
     [arm_price_warning pricing]).
Proof.
  intros H.
  assert (spot_arm_unset pricing) as [Hc Hm].
  { unfold GetAutopilotPricing in H. destruct reply as [e | e | skus].
    - injection H as <- _. split; reflexivity.
    - injection H as <- _. split; reflexivity.
    - destruct (price_skus reg (zero_pricing reg) skus) as [p |] eqn:Hp;
        [| discriminate].
      injection H as <- _.
      apply (price_skus_keeps_spot_arm reg skus _ _ Hp). split; reflexivity. }
  rewrite CalculatePricing_arm. unfold arm_prices. simpl fst. simpl snd.
  rewrite Hc, Hm. reflexivity.
Qed.

Lemma catalog_never_prices_arm_on_spot_witness :
  GetAutopilotPricing "us-central1" (Listed arm_catalog)
  = Returned (arm_catalog_pricing, None)
  /\ CalculatePricing 20000 80000 10 arm_catalog_pricing COMPUTE_CLASS_SCALEOUT_ARM true
     = (cost_of 0 0 (storage_price arm_catalog_pricing) 20000 80000 10,
        [arm_price_warning arm_catalog_pricing]).
Proof.
  split; [vm_compute; reflexivity |].
  exact (catalog_never_prices_arm_on_spot "us-central1" (Listed arm_catalog)
           arm_catalog_pricing None 20000 80000 10 ltac:(vm_compute; reflexivity)).
Defined.

(** ** The usage of a pod *)

Lemma wrap_in_range (z : Z) :
  Int64.min_int <= z <= Int64.max_int -> Int64.wrap z = z.
Proof.
  unfold Int64.min_int, Int64.max_int, Int64.wrap. intros H.
  rewrite Z.mod_small by lia. lia.
Qed.

Lemma Zsum_nonneg (l : list Z) : Forall (fun z => 0 <= z) l -> 0 <= Zsum l.
Proof. induction 1; simpl; lia. Qed.

Lemma Zsum_map_nonneg {A} (f : A -> Z) (l : list A) :
  Forall (fun a => 0 <= f a) l -> 0 <= Zsum (map f l).
Proof. induction 1; simpl; lia. Qed.

Lemma Zsum_quot_bounds {A} (d : Z) (f : A -> Z) (l : list A) :
  0 < d -> Forall (fun a => 0 <= f a) l ->
  d * Zsum (map (fun a => Z.quot (f a) d) l) <= Zsum (map f l)
  /\ Zsum (map f l) <= d * Zsum (map (fun a => Z.quot (f a) d) l) + (d - 1) * Z.of_nat (length l).
Proof.
  intros Hd. induction 1 as [| z rest Hz Hrest IH]; [simpl; lia |].
  cbn [map Zsum fold_right length]. fold (Zsum (map f rest)).
  fold (Zsum (map (fun a => Z.quot (f a) d) rest)).
  rewrite Z.quot_div_nonneg by lia.
  pose proof (Z.div_mod (f z) d ltac:(lia)). pose proof (Z.mod_pos_bound (f z) d Hd).
  nia.
Qed.

Lemma Int64_add_in_range (a b : Z) :
  Int64.min_int <= a + b <= Int64.max_int -> Int64.add a b = a + b.
Proof. apply wrap_in_range. Qed.

Lemma Int64_quot_in_range (a : Z) :
  0 <= a <= Int64.max_int -> Int64.quot a 1000000000 = Z.quot a 1000000000.
Proof.
  intros H. apply wrap_in_range.
  assert (Int64.min_int = -9223372036854775808) as -> by reflexivity.
  split; [pose proof (Z.quot_pos a 1000000000); lia |].
  etransitivity; [apply Z.quot_le_upper_bound with (q := a); lia | lia].
Qed.

Lemma sum_usage_from (containers : list ContainerMetrics) :
  forall c m s n : Z,
    0 <= c -> 0 <= m -> 0 <= s ->
    Forall (fun k => 0 <= Usage_Cpu k /\ 0 <= Usage_Memory k
                     /\ 0 <= Usage_StorageEphemeral k) containers ->
    c + Zsum (map Usage_Cpu containers) <= Int64.max_int ->
    m + Zsum (map Usage_Memory containers) <= Int64.max_int ->
    s + Zsum (map Usage_StorageEphemeral containers) <= Int64.max_int ->
    fold_left
      (fun '(cpu_m, memory_m, storage_m, containers_in_pod) k =>
         (Int64.add cpu_m (Usage_Cpu k),
          Int64.add memory_m (Int64.quot (Usage_Memory k) 1000000000),
          Int64.add storage_m (Int64.quot (Usage_StorageEphemeral k) 1000000000),
          containers_in_pod + 1))
      containers (c, m, s, n)
    = (c + Zsum (map Usage_Cpu containers),
       m + Zsum (map (fun k => Z.quot (Usage_Memory k) 1000000000) containers),
       s + Zsum (map (fun k => Z.quot (Usage_StorageEphemeral k) 1000000000) containers),
       n + Z.of_nat (length containers)).
Proof.
  induction containers as [| k rest IH]; intros c m s n Hc Hm Hs Hall Hcs Hms Hss.
  - simpl. f_equal; [f_equal; [f_equal |] |]; lia.
  - inversion Hall as [| k' rest' (Hkc & Hkm & Hks) Hrest]; subst.
    assert (0 <= Zsum (map Usage_Cpu rest)) as Hrc
        by (apply Zsum_map_nonneg; eapply Forall_impl; [exact Hrest | simpl; tauto]).
    assert (0 <= Zsum (map Usage_Memory rest)) as Hrm
        by (apply Zsum_map_nonneg; eapply Forall_impl; [exact Hrest | simpl; tauto]).
    assert (0 <= Zsum (map Usage_StorageEphemeral rest)) as Hrs
        by (apply Zsum_map_nonneg; eapply Forall_impl; [exact Hrest | simpl; tauto]).
    cbn [map Zsum fold_right] in Hcs, Hms, Hss.
    fold (Zsum (map Usage_Cpu rest)) in Hcs.
    fold (Zsum (map Usage_Memory rest)) in Hms.
    fold (Zsum (map Usage_StorageEphemeral rest)) in Hss.
    assert (0 <= Z.quot (Usage_Memory k) 1000000000 <= Usage_Memory k) as Hqm.
    { split; [apply Z.quot_pos; lia |]. apply Z.quot_le_upper_bound; lia. }
    assert (0 <= Z.quot (Usage_StorageEphemeral k) 1000000000
            <= Usage_StorageEphemeral k) as Hqs.
    { split; [apply Z.quot_pos; lia |]. apply Z.quot_le_upper_bound; lia. }
    assert (Int64.max_int = 9223372036854775807) as Hmax by reflexivity.
    assert (Int64.min_int = -9223372036854775808) as Hmin by reflexivity.
    cbn [fold_left].
    rewrite (Int64_quot_in_range (Usage_Memory k)) by lia.
    rewrite (Int64_quot_in_range (Usage_StorageEphemeral k)) by lia.
    rewrite (Int64_add_in_range c), (Int64_add_in_range m), (Int64_add_in_range s) by lia.
    rewrite IH; try lia; try assumption.
    cbn [map Zsum fold_right length].
    rewrite Nat2Z.inj_succ.
    fold (Zsum (map Usage_Cpu rest)).
    fold (Zsum (map (fun k => Z.quot (Usage_Memory k) 1000000000) rest)).
    fold (Zsum (map (fun k => Z.quot (Usage_StorageEphemeral k) 1000000000) rest)).
    f_equal; [f_equal; [f_equal |] |]; lia.
Qed.

(** For containers with a non-negative usage whose sums fit [int64], the
    CPU of a pod is the sum of the CPU of its containers, and the memory and
    the storage are the sums of the whole units of each container: the
    fraction of a unit is dropped per container, so the memory of the pod is
    at most the whole units of the total and falls short of them by at most
    the number of containers. *)
Theorem sum_usage_per_container (containers : list ContainerMetrics) :
  usage_fits containers ->
  let '(cpu_m, memory_m, storage_m, containers_in_pod) := sum_usage containers in
  cpu_m = Zsum (map Usage_Cpu containers)
  /\ memory_m = Zsum (map (fun k => Z.quot (Usage_Memory k) 1000000000) containers)
  /\ storage_m
     = Zsum (map (fun k => Z.quot (Usage_StorageEphemeral k) 1000000000) containers)
  /\ containers_in_pod = Z.of_nat (length containers)
  /\ memory_m <= Z.quot (Zsum (map Usage_Memory containers)) 1000000000
  /\ Z.quot (Zsum (map Usage_Memory containers)) 1000000000 - Z.of_nat (length containers)
     <= memory_m.
Proof.
  intros (Hall & Hc & Hm & Hs). unfold sum_usage.
  rewrite sum_usage_from; try lia; try assumption.
  assert (Forall (fun k => 0 <= Usage_Memory k) containers) as Hnn
      by (eapply Forall_impl; [exact Hall | simpl; tauto]).
  destruct (Zsum_quot_bounds 1000000000 Usage_Memory containers ltac:(lia) Hnn)
    as [Hlo Hhi].
  pose proof (Zsum_map_nonneg _ _ Hnn) as Hsum.
  rewrite !Z.add_0_l. split; [reflexivity |]. split; [reflexivity |].
  split; [reflexivity |]. split; [reflexivity |].
  rewrite Z.quot_div_nonneg by lia. split.
  - apply Z.div_le_lower_bound; lia.
  - assert (Zsum (map Usage_Memory containers) / 1000000000
            < Zsum (map (fun k => Z.quot (Usage_Memory k) 1000000000) containers)
              + Z.of_nat (length containers) + 1); [| lia].
    apply Z.div_lt_upper_bound; lia.
Qed.

Lemma sum_usage_per_container_witness :
  usage_fits three_containers
  /\ sum_usage three_containers = (600, 2, 0, 3)
  /\ Z.quot (Zsum (map Usage_Memory three_containers)) 1000000000 = 4
  /\ (let '(cpu_m, memory_m, storage_m, containers_in_pod) := sum_usage three_containers in
      cpu_m = 600 /\ memory_m = 1 + 1 + 0 /\ storage_m = 0 + 0 + 0
      /\ containers_in_pod = 3 /\ memory_m <= 4 /\ 4 - 3 <= memory_m).
Proof.
  assert (usage_fits three_containers) as Hfits.
  { split; [repeat constructor; simpl; lia |]. vm_compute. repeat split; discriminate. }
  split; [exact Hfits |]. split; [reflexivity |]. split; [reflexivity |].
  exact (sum_usage_per_container three_containers Hfits).
Defined.

(** ** The pass over the workloads: what it records and what it keeps *)

(** The workload built for a pod, field by field. *)
Lemma workload_object_value (pricing : ap_pricing) (nodes : gmap string Node.t)
  (v : PodMetrics) (node_name : string) :
  let '(cpu_m, memory_m, storage_m, containers_in_pod) := sum_usage (pm_Containers v) in
  let node := node_at nodes node_name in
  let class :=
    value (DecideComputeClass (pm_Name v) (Z.max 250 cpu_m) (Z.max 500 memory_m)
             (strings_Contains (Node.InstanceType node) ARM_TYPE_PREFIX)) in
  value (workload_object pricing nodes v node_name)
  = {| Workload.Name := pm_Name v;
       Workload.Containers := containers_in_pod;
       Workload.Node_name := node_name;
       Workload.Cpu := Z.max 250 cpu_m;
       Workload.Memory := Z.max 500 memory_m;
       Workload.Storage := Z.max 10 storage_m;
       Workload.Cost :=
         value (CalculatePricing (Z.max 250 cpu_m) (Z.max 500 memory_m)
                  (Z.max 10 storage_m) pricing class (Node.Spot node));
       Workload.Compute_class := class |}.
Proof.
  unfold workload_object.
  destruct (sum_usage (pm_Containers v)) as [[[cpu_m memory_m] storage_m] n].
  rewrite ValidateLowerLimits_max. cbv zeta.
  rewrite value_bind, value_bind. reflexivity.
Qed.

Lemma workload_object_consistent (pricing : ap_pricing) (nodes : gmap string Node.t)
  (v : PodMetrics) (node_name : string) :
  consistent pricing nodes (value (workload_object pricing nodes v node_name))
  /\ Workload.Name (value (workload_object pricing nodes v node_name)) = pm_Name v
  /\ Workload.Node_name (value (workload_object pricing nodes v node_name)) = node_name.
Proof.
  pose proof (workload_object_value pricing nodes v node_name) as H.
  destruct (sum_usage (pm_Containers v)) as [[[cpu_m memory_m] storage_m] n].
  cbv zeta in H. rewrite H. unfold consistent, within_floors. simpl.
  repeat split; lia.
Qed.

Section PassRecords.
Variable DescribePod : string -> string -> result string.
Variable pricing : ap_pricing.

Local Abbreviation planned := (planned DescribePod pricing).

(** The result of the loop, found or not. *)
Lemma populate_value (items : list PodMetrics) :
  forall (nodes : gmap string Node.t) (workloads : list Workload.t),
    value (populate DescribePod pricing items nodes workloads)
    = (fold_left add_to_node (planned nodes (found_before DescribePod items)) nodes,
       match first_error DescribePod items with
       | None => Ok (workloads ++ planned nodes items)
       | Some err => Err err
       end).
Proof.
  induction items as [| v rest IH]; intros nodes workloads.
  - simpl. rewrite app_nil_r. reflexivity.
  - cbn [found_before first_error]. unfold described.
    destruct (DescribePod (pm_Name v) (pm_Namespace v)) as [node_name | err] eqn:Hd.
    + rewrite (populate_cons DescribePod pricing v rest nodes workloads node_name Hd).
      rewrite !(planned_cons DescribePod pricing v _ nodes node_name Hd).
      rewrite IH, !planned_add_to_node.
      destruct (first_error DescribePod rest); [reflexivity |].
      rewrite <- app_assoc. reflexivity.
    + simpl. rewrite Hd. reflexivity.
Qed.

Lemma found_before_all (items : list PodMetrics) :
  forallb (described DescribePod) items = true ->
  found_before DescribePod items = items /\ first_error DescribePod items = None.
Proof.
  induction items as [| v rest IH]; [split; reflexivity |].
  cbn [forallb found_before first_error]. intros H.
  apply andb_prop in H. destruct H as [Hv Hrest]. rewrite Hv.
  unfold described in Hv.
  destruct (DescribePod (pm_Name v) (pm_Namespace v)); [| discriminate].
  destruct (IH Hrest) as [-> ->]. split; reflexivity.
Qed.

Lemma found_before_app (items1 items2 : list PodMetrics) (v : PodMetrics) (err : string) :
  forallb (described DescribePod) items1 = true ->
  DescribePod (pm_Name v) (pm_Namespace v) = Err err ->
  found_before DescribePod (items1 ++ v :: items2) = items1
  /\ first_error DescribePod (items1 ++ v :: items2) = Some err.
Proof.
  intros H1 Hv. induction items1 as [| u rest IH].
  - simpl. unfold described. rewrite Hv. split; reflexivity.
  - cbn [forallb] in H1. apply andb_prop in H1. destruct H1 as [Hu Hrest].
    cbn [app found_before first_error]. rewrite Hu. unfold described in Hu.
    destruct (DescribePod (pm_Name u) (pm_Namespace u)); [| discriminate].
    destruct (IH Hrest) as [-> ->]. split; reflexivity.
Qed.

Lemma first_error_none (items : list PodMetrics) :
  first_error DescribePod items = None -> forallb (described DescribePod) items = true.
Proof.
  induction items as [| v rest IH]; [reflexivity |].
  cbn [first_error forallb]. unfold described at 1.
  destruct (DescribePod (pm_Name v) (pm_Namespace v)); [| discriminate].
  intros H. rewrite (IH H). reflexivity.
Qed.
End PassRecords.

Lemma add_to_node_dom (nodes : gmap string Node.t) (w : Workload.t) :
  dom (add_to_node nodes w) = dom nodes.
Proof.
  unfold add_to_node.
  destruct (nodes !! Workload.Node_name w) as [entry |] eqn:Hw; [| reflexivity].
  apply dom_insert_lookup_L. rewrite Hw. eauto.
Qed.

Lemma add_to_node_missing (nodes : gmap string Node.t) (w : Workload.t) :
  nodes !! Workload.Node_name w = None -> add_to_node nodes w = nodes.
Proof. intros H. unfold add_to_node. rewrite H. reflexivity. Qed.

(** The updates of a list of workloads: the keys stay, and so does
    everything of a node but its list, which grows at its end by the
    workloads that name the node, and its cost. *)
Lemma fold_add_to_node_keeps (workloads : list Workload.t) :
  forall nodes : gmap string Node.t,
    dom (fold_left add_to_node workloads nodes) = dom nodes
    /\ forall (name : string) (entry : Node.t),
         nodes !! name = Some entry ->
         exists entry' : Node.t,
           fold_left add_to_node workloads nodes !! name = Some entry'
           /\ same_node entry entry'
           /\ Node.Workloads entry' = Node.Workloads entry ++ hosted name workloads.
Proof.
  induction workloads as [| w rest IH]; intros nodes.
  - split; [reflexivity |]. intros name entry H. exists entry.
    unfold same_node. simpl. rewrite app_nil_r. tauto.
  - simpl fold_left. destruct (IH (add_to_node nodes w)) as [Hdom Hnodes].
    split; [rewrite Hdom; apply add_to_node_dom |].
    intros name entry Hentry.
    unfold hosted. rewrite filter_cons. fold (hosted name rest).
    destruct (decide (Workload.Node_name w = name)) as [Heq | Hne].
    + assert (add_to_node nodes w !! name
              = Some (Node.host entry w (Workload.Cost w))) as Hstep.
      { unfold add_to_node. rewrite Heq, Hentry. apply lookup_insert_eq. }
      destruct (Hnodes _ _ Hstep) as (entry' & Hl & Hsame & Hw).
      exists entry'. split; [exact Hl |]. split; [exact Hsame |].
      rewrite Hw. simpl. rewrite <- app_assoc. reflexivity.
    + assert (add_to_node nodes w !! name = Some entry) as Hstep.
      { unfold add_to_node.
        destruct (nodes !! Workload.Node_name w); [| exact Hentry].
        rewrite lookup_insert_ne by exact Hne. exact Hentry. }
      exact (Hnodes _ _ Hstep).
Qed.

Lemma hosted_named (name : string) (workloads : list Workload.t) :
  Forall (fun w => Workload.Node_name w = name) (hosted name workloads).
Proof.
  unfold hosted. induction workloads as [| w rest IH]; [constructor |].
  rewrite filter_cons. destruct (decide (Workload.Node_name w = name)); [| exact IH].
  constructor; assumption.
Qed.

(** Whether it ends with an error or not, [PopulateWorkloads] leaves the
    keys of the node map as they were, and of every node its name, instance
    type, region and spot flag; the list of a node only grows, at its end, by
    workloads that carry the name of that node. *)
Theorem PopulateWorkloads_keeps_nodes
  (DescribePod : string -> string -> result string) (pricing : ap_pricing)
  (items : list PodMetrics) (nodes : gmap string Node.t) :
  let nodes' := fst (value (PopulateWorkloads DescribePod pricing items nodes)) in
  dom nodes' = dom nodes
  /\ forall (name : string) (entry : Node.t),
       nodes !! name = Some entry ->
       exists (entry' : Node.t) (more : list Workload.t),
         nodes' !! name = Some entry'
         /\ same_node entry entry'
         /\ Node.Workloads entry' = Node.Workloads entry ++ more
         /\ Forall (fun w => Workload.Node_name w = name) more.
Proof.
  unfold PopulateWorkloads. rewrite populate_value. simpl fst.
  destruct (fold_add_to_node_keeps
              (planned DescribePod pricing nodes (found_before DescribePod items)) nodes)
    as [Hdom Hnodes].
  split; [exact Hdom |]. intros name entry Hentry.
  destruct (Hnodes name entry Hentry) as (entry' & Hl & Hsame & Hw).
  exists entry', (hosted name (planned DescribePod pricing nodes
                                 (found_before DescribePod items))).
  split; [exact Hl |]. split; [exact Hsame |]. split; [exact Hw |].
  apply hosted_named.
Qed.

(** When a pod is not found, [PopulateWorkloads] returns the error and no
    workloads, and the node map keeps the updates of the pods before it: it is
    the map of a pass over those pods alone. *)
Theorem PopulateWorkloads_error_keeps_updates
  (DescribePod : string -> string -> result string) (pricing : ap_pricing)
  (items1 items2 : list PodMetrics) (v : PodMetrics) (err : string)
  (nodes : gmap string Node.t) :
  forallb (described DescribePod) items1 = true ->
  DescribePod (pm_Name v) (pm_Namespace v) = Err err ->
  value (PopulateWorkloads DescribePod pricing (items1 ++ v :: items2) nodes)
  = (fst (value (PopulateWorkloads DescribePod pricing items1 nodes)), Err err).
Proof.
  intros H1 Hv. unfold PopulateWorkloads. rewrite !populate_value.
  destruct (found_before_app DescribePod items1 items2 v err H1 Hv) as [-> ->].
  destruct (found_before_all DescribePod items1 H1) as [-> _]. reflexivity.
Qed.

(** The workloads of a pass that finds every pod: one for each pod, in the
    order of the pods and under their names, each at or above the lower
    limits, with the class of its recorded usage for the instance type of its
    node, and with the price of its recorded usage and class for the spot flag
    of its node. *)
Theorem PopulateWorkloads_records
  (DescribePod : string -> string -> result string) (pricing : ap_pricing)
  (items : list PodMetrics) (nodes nodes' : gmap string Node.t)
  (workloads : list Workload.t) :
  value (PopulateWorkloads DescribePod pricing items nodes) = (nodes', Ok workloads) ->
  map Workload.Name workloads = map pm_Name items
  /\ Forall (consistent pricing nodes) workloads.
Proof.
  unfold PopulateWorkloads. rewrite populate_value.
  destruct (first_error DescribePod items); [discriminate |].
  intros [= _ <-]. simpl app. unfold planned. split.
  - rewrite map_map. apply map_ext. intros v.
    apply (workload_object_consistent pricing nodes v).
  - apply Forall_map. apply Forall_forall. intros v _.
    apply (workload_object_consistent pricing nodes v).
Qed.


Lemma DecideComputeClass_x86 (workload : string) (mCPU memory : Z) :
  value (DecideComputeClass workload mCPU memory false) <> COMPUTE_CLASS_SCALEOUT_ARM.
Proof.
  rewrite DecideComputeClass_rules. unfold Spec.classify, Spec.rules, Spec.first_match.
  repeat match goal with
         | |- context [if ?b then _ else _] => destruct b
         end; discriminate.
Qed.

Lemma fold_add_to_node_missing (workloads : list Workload.t) (nodes : gmap string Node.t) :
  Forall (fun w => nodes !! Workload.Node_name w = None) workloads ->
  fold_left add_to_node workloads nodes = nodes.
Proof.
  induction 1 as [| w rest Hw Hrest IH]; [reflexivity |].
  simpl. rewrite (add_to_node_missing nodes w Hw). exact IH.
Qed.

Lemma planned_node_names (DescribePod : string -> string -> result string)
  (pricing : ap_pricing) (nodes : gmap string Node.t) (items : list PodMetrics) :
  map Workload.Node_name (planned DescribePod pricing nodes items)
  = map (node_name_of DescribePod) items.
Proof.
  unfold planned. rewrite map_map. apply map_ext. intros v.
  apply (workload_object_consistent pricing nodes v).
Qed.

(** The updates of the pods on missing nodes are no updates. *)
Lemma fold_add_to_node_known (DescribePod : string -> string -> result string)
  (pricing : ap_pricing) (nodes0 : gmap string Node.t) (items : list PodMetrics) :
  forall nodes : gmap string Node.t,
    dom nodes = dom nodes0 ->
    fold_left add_to_node (planned DescribePod pricing nodes0 items) nodes
    = fold_left add_to_node
        (planned DescribePod pricing nodes0 (on_known_nodes DescribePod nodes0 items))
        nodes.
Proof.
  induction items as [| v rest IH]; intros nodes Hdom; [reflexivity |].
  unfold on_known_nodes. rewrite filter_cons. fold (on_known_nodes DescribePod nodes0 rest).
  change (planned DescribePod pricing nodes0 (v :: rest))
    with (value (workload_object pricing nodes0 v (node_name_of DescribePod v))
          :: planned DescribePod pricing nodes0 rest).
  destruct (workload_object_consistent pricing nodes0 v (node_name_of DescribePod v))
    as (_ & _ & Hname).
  destruct (decide (is_Some (nodes0 !! node_name_of DescribePod v))) as [Hk | Hk].
  - change (planned DescribePod pricing nodes0
              (v :: on_known_nodes DescribePod nodes0 rest))
      with (value (workload_object pricing nodes0 v (node_name_of DescribePod v))
            :: planned DescribePod pricing nodes0
                 (on_known_nodes DescribePod nodes0 rest)).
    simpl fold_left. apply IH. rewrite add_to_node_dom. exact Hdom.
  - simpl fold_left. rewrite add_to_node_missing; [apply IH, Hdom |].
    rewrite Hname. apply not_elem_of_dom. rewrite Hdom.
    intros Hin. apply Hk. apply elem_of_dom. exact Hin.
Qed.

(** A pod whose node is not in the map is still returned as a workload, in
    its place and under the name of that node, classified as on a node that is
    not ARM and priced at the on-demand prices; no node takes it, whatever
    the other pods of the pass are: the map after the pass is the map of a
    pass over the pods on the nodes of the map alone. *)
Theorem PopulateWorkloads_unknown_nodes
  (DescribePod : string -> string -> result string) (pricing : ap_pricing)
  (items : list PodMetrics) (nodes nodes' : gmap string Node.t)
  (workloads : list Workload.t) :
  value (PopulateWorkloads DescribePod pricing items nodes) = (nodes', Ok workloads) ->
  map Workload.Node_name workloads = map (node_name_of DescribePod) items
  /\ Forall (fun w =>
               nodes !! Workload.Node_name w = None ->
               nodes' !! Workload.Node_name w = None
               /\ Workload.Compute_class w <> COMPUTE_CLASS_SCALEOUT_ARM
               /\ Workload.Cost w
                  = value (CalculatePricing (Workload.Cpu w) (Workload.Memory w)
                             (Workload.Storage w) pricing (Workload.Compute_class w)
                             false))
       workloads
  /\ nodes' = fst (value (PopulateWorkloads DescribePod pricing
                            (on_known_nodes DescribePod nodes items) nodes)).
Proof.
  unfold PopulateWorkloads. rewrite !populate_value.
  destruct (first_error DescribePod items) eqn:Herr; [discriminate |].
  pose proof (first_error_none DescribePod items Herr) as Hd.
  destruct (found_before_all DescribePod items Hd) as [-> _].
  intros [= <- <-]. simpl app.
  assert (forallb (described DescribePod) (on_known_nodes DescribePod nodes items) = true)
    as Hd'.
  { apply forallb_forall. intros v Hv. rewrite forallb_forall in Hd. apply Hd.
    apply list_elem_of_In. apply list_elem_of_In in Hv.
    unfold on_known_nodes in Hv. apply list_elem_of_filter in Hv. tauto. }
  destruct (found_before_all DescribePod _ Hd') as [-> _]. simpl fst.
  split; [apply planned_node_names |]. split.
  - unfold planned. apply Forall_map. apply Forall_forall. intros v _. simpl.
    destruct (workload_object_consistent pricing nodes v (node_name_of DescribePod v))
      as ((_ & Hclass & Hcost) & _ & Hname).
    rewrite Hname. intros Hv. rewrite Hname in Hclass, Hcost.
    unfold node_at in Hclass, Hcost. rewrite Hv in Hclass, Hcost.
    simpl in Hclass, Hcost. split; [| split; [| exact Hcost]].
    + apply not_elem_of_dom.
      destruct (fold_add_to_node_keeps (planned DescribePod pricing nodes items) nodes)
        as [Hdom _].
      unfold planned in Hdom. rewrite Hdom. apply not_elem_of_dom. exact Hv.
    + rewrite Hclass. apply DecideComputeClass_x86.
  - apply fold_add_to_node_known. reflexivity.
Qed.

Lemma PopulateWorkloads_unknown_nodes_witness :
  value (PopulateWorkloads mixed_DescribePod cpu_only_pricing pods_mixed example_nodes)
  = (fst (value (PopulateWorkloads mixed_DescribePod cpu_only_pricing pods_mixed
                   example_nodes)),
     Ok (planned mixed_DescribePod cpu_only_pricing example_nodes pods_mixed))
  /\ map Workload.Node_name
       (planned mixed_DescribePod cpu_only_pricing example_nodes pods_mixed)
     = ["n1"; "ghost"; "n1"]%string
  /\ on_known_nodes mixed_DescribePod example_nodes pods_mixed
     = [pod_of "a" 1000 1000; pod_of "b" 3000 3000]
  /\ fst (value (PopulateWorkloads mixed_DescribePod cpu_only_pricing pods_mixed
                   example_nodes))
     = fst (value (PopulateWorkloads mixed_DescribePod cpu_only_pricing
                     (on_known_nodes mixed_DescribePod example_nodes pods_mixed)
                     example_nodes)).
Proof.
  assert (value (PopulateWorkloads mixed_DescribePod cpu_only_pricing pods_mixed
                   example_nodes)
          = (fst (value (PopulateWorkloads mixed_DescribePod cpu_only_pricing pods_mixed
                           example_nodes)),
             Ok (planned mixed_DescribePod cpu_only_pricing example_nodes pods_mixed)))
    as Hrun by (vm_compute; reflexivity).
  split; [exact Hrun |].
  destruct (PopulateWorkloads_unknown_nodes mixed_DescribePod cpu_only_pricing pods_mixed
              example_nodes _ _ Hrun) as (Hnames & _ & Hmap).
  split; [exact Hnames |]. split; [vm_compute; reflexivity | exact Hmap].
Defined.

Lemma PopulateWorkloads_error_keeps_updates_witness :
  forallb (described losing_DescribePod) [pod_of "a" 1000 1000] = true
  /\ losing_DescribePod "lost" "default" = Err "pods lost not found"
  /\ value (PopulateWorkloads losing_DescribePod cpu_only_pricing
              ([pod_of "a" 1000 1000] ++ pod_of "lost" 1 1 :: [pod_of "b" 2000 2000])
              example_nodes)
     = (fst (value (PopulateWorkloads losing_DescribePod cpu_only_pricing
                      [pod_of "a" 1000 1000] example_nodes)),
        Err "pods lost not found").
Proof.
  split; [reflexivity |]. split; [reflexivity |].
  exact (PopulateWorkloads_error_keeps_updates losing_DescribePod cpu_only_pricing
           [pod_of "a" 1000 1000] [pod_of "b" 2000 2000] (pod_of "lost" 1 1)
           "pods lost not found" example_nodes eq_refl eq_refl).
Defined.

Lemma PopulateWorkloads_records_witness :
  value (PopulateWorkloads example_DescribePod cpu_only_pricing pods_abc example_nodes)
  = (fst (value (PopulateWorkloads example_DescribePod cpu_only_pricing pods_abc
                   example_nodes)),
     Ok (planned example_DescribePod cpu_only_pricing example_nodes pods_abc))
  /\ map Workload.Name (planned example_DescribePod cpu_only_pricing example_nodes pods_abc)
     = map pm_Name pods_abc
  /\ Forall (consistent cpu_only_pricing example_nodes)
       (planned example_DescribePod cpu_only_pricing example_nodes pods_abc).
Proof.
  assert (value (PopulateWorkloads example_DescribePod cpu_only_pricing pods_abc
                   example_nodes)
          = (fst (value (PopulateWorkloads example_DescribePod cpu_only_pricing pods_abc
                           example_nodes)),
             Ok (planned example_DescribePod cpu_only_pricing example_nodes pods_abc)))
    as Hrun by (vm_compute; reflexivity).
  split; [exact Hrun |].
  exact (PopulateWorkloads_records example_DescribePod cpu_only_pricing pods_abc
           example_nodes _ _ Hrun).
Defined.

(** ** The tables *)

Lemma fold_left_snoc {A B} (f : A -> B) (l : list A) :
  forall acc : list B, fold_left (fun rows a => rows ++ [f a]) l acc = acc ++ map f l.
Proof.
  induction l as [| a rest IH]; intros acc; simpl.
  - rewrite app_nil_r. reflexivity.
  - rewrite IH, <- app_assoc. reflexivity.
Qed.

Lemma workload_rows_flat (FormatFloat : float -> string)
  (COMPUTE_CLASSES : ComputeClass -> string) (order : list Node.t) :
  forall rows : list (list string),
    fold_left
      (fun rows node =>
         fold_left
           (fun rows workload =>
              rows ++ [workload_row FormatFloat COMPUTE_CLASSES node workload])
           (Node.Workloads node) rows)
      order rows
    = rows ++ flat_map
                (fun node => map (workload_row FormatFloat COMPUTE_CLASSES node)
                               (Node.Workloads node))
                order.
Proof.
  induction order as [| node rest IH]; intros rows; simpl.
  - rewrite app_nil_r. reflexivity.
  - rewrite IH, fold_left_snoc, <- app_assoc. reflexivity.
Qed.

(** The rows of the two tables fit their columns: the node table has one row
    of four cells for each node, and the workload table has one row of nine
    cells for each workload of each node, in the order of the nodes, followed
    by the three summary rows. *)
Theorem table_rows_fit_columns (FormatFloat : float -> string)
  (COMPUTE_CLASSES : ComputeClass -> string) (order : list Node.t) :
  DisplayNodeTable order = map node_row order
  /\ Forall (fun row => length row = length node_columns) (DisplayNodeTable order)
  /\ workload_table_rows FormatFloat COMPUTE_CLASSES order
     = flat_map (fun node => map (workload_row FormatFloat COMPUTE_CLASSES node)
                               (Node.Workloads node)) order
       ++ map (summary_row FormatFloat) (DisplayWorkloadTable order)
  /\ Forall (fun row => length row = length workload_columns)
       (workload_table_rows FormatFloat COMPUTE_CLASSES order)
  /\ length (workload_table_rows FormatFloat COMPUTE_CLASSES order)
     = (length (flat_map Node.Workloads order) + 3)%nat.
Proof.
  assert (DisplayNodeTable order = map node_row order) as Hnode
      by (unfold DisplayNodeTable; rewrite fold_left_snoc; reflexivity).
  assert (workload_table_rows FormatFloat COMPUTE_CLASSES order
          = flat_map (fun node => map (workload_row FormatFloat COMPUTE_CLASSES node)
                                    (Node.Workloads node)) order
            ++ map (summary_row FormatFloat) (DisplayWorkloadTable order)) as Hrows.
  { unfold workload_table_rows. rewrite fold_left_snoc, workload_rows_flat. reflexivity. }
  split; [exact Hnode |]. split.
  { rewrite Hnode. apply Forall_map. apply Forall_forall. reflexivity. }
  split; [exact Hrows |]. split.
  - rewrite Hrows. apply Forall_app. split.
    + apply Forall_flat_map. apply Forall_forall. intros node _.
      apply Forall_map. apply Forall_forall. reflexivity.
    + apply Forall_map. apply Forall_forall. reflexivity.
  - rewrite Hrows, length_app, length_map, DisplayWorkloadTable_rows.
    cbn [length]. f_equal. clear Hnode Hrows.
    induction order as [| node rest IH]; [reflexivity |].
    cbn [flat_map]. rewrite !length_app, length_map, IH. reflexivity.
Qed.

(** ** The two accumulators of the cluster *)

(** [total_cost] is the fee and then the costs of the workloads of the nodes
    that are not spot, added in the order of the nodes and of their lists;
    [total_cost_spot] is the same sum, from 0, over the spot nodes.  Neither
    sum reads a workload of the other kind. *)
Theorem cluster_totals_separate_sums (order : list Node.t) :
  cluster_totals order
  = (running_total CLUSTER_FEE
       (flat_map (fun node => if Node.Spot node then [] else Node.Workloads node) order),
     running_total 0
       (flat_map (fun node => if Node.Spot node then Node.Workloads node else []) order)).
Proof.
  rewrite cluster_totals_split. unfold workloads_on. f_equal; f_equal;
    apply flat_map_ext; intros node; destruct (Node.Spot node); reflexivity.
Qed.

(** ** The routing of the descriptions *)

(** Every description of the switch but the two that are repeated reaches
    the field of its own case, in every region: no other case comes first
    with the same description. *)
Theorem sku_cases_reach_their_field (reg description : string) (f : price_field) :
  In (description, f) (sku_cases reg) ->
  is_spot_arm_field f = false ->
  switch_on description (sku_cases reg) = Some f.
Proof.
  unfold sku_cases. cbn [In].
  intros H Hf.
  repeat (destruct H as [H | H];
          [injection H as <- <-; try discriminate Hf;
           unfold switch_on, case_of; cbn; rewrite ?String.eqb_refl; reflexivity |]).
  destruct H.
Qed.

Lemma sku_cases_reach_their_field_witness :
  In (case_of "Autopilot Pod mCPU Requests" "us-central1", F_cpu_price)
    (sku_cases "us-central1")
  /\ is_spot_arm_field F_cpu_price = false
  /\ switch_on "Autopilot Pod mCPU Requests (us-central1)" (sku_cases "us-central1")
     = Some F_cpu_price.
Proof.
  assert (In (case_of "Autopilot Pod mCPU Requests" "us-central1", F_cpu_price)
            (sku_cases "us-central1")) as Hin by (simpl; tauto).
  split; [exact Hin |]. split; [reflexivity |].
  exact (sku_cases_reach_their_field "us-central1" _ F_cpu_price Hin eq_refl).
Defined.
